(** * Stage-B training driver (train_b.py): a shallow embedding

    The file models [WurstCore] of [src/train_b.py]: its configuration
    record, [setup_extras_pre], [setup_models], [_pyramid_noise],
    [forward_pass] and [backward_pass].

    Tensors are symbolic: a tensor value is the expression that computed it
    ([texpr]), so that "which operation ran on which operand" can be read
    off a result.  Calls that have an effect (random draws, calls of the
    models and of the diffusion framework, optimizer steps, ...) run in a
    small state-and-exception monad over a [world]; each one is appended
    to the world's [trace] together with the modes in force at the call
    (gradient recording, autocast, gradient synchronisation). *)

From Stdlib Require Import ZArith QArith Qround Qminmax Qabs Sorted Lia.
From stdpp Require Import base option list strings gmap.

Set Warnings "-register-all".
Local Open Scope string_scope.
Local Open Scope list_scope.
Local Open Scope Z_scope.

(** ** Python values and exceptions *)

Inductive pyval :=
| PyNone
| PyBool (b : bool)
| PyInt (n : Z)
| PyFloat (q : Q)
| PyStr (s : string).

(** [v is True]: identity with the singleton [True]; [1 is True] and
    ['True' is True] are both false. *)
Definition is_True (v : pyval) : bool :=
  match v with
  | PyBool true => true
  | _ => false
  end.

Inductive exn :=
| ValueError (msg : string)
| KeyError (key : string)
| UnboundLocalError (name : string)
| TypeError (msg : string)
| FrozenInstanceError (field : string)
| FileNotFoundError (path : string)
| RuntimeError (msg : string)
| OSError (msg : string).

Inductive result (A : Type) :=
| Ok (a : A)
| Raise (e : exn).
Arguments Ok {A} a.
Arguments Raise {A} e.

Definition rbind {A B} (r : result A) (k : A -> result B) : result B :=
  match r with
  | Ok a => k a
  | Raise e => Raise e
  end.

(** [d[key]] on a dict with string keys: [KeyError] when absent. *)
Definition getitem {V} (d : gmap string V) (key : string) : result V :=
  match d !! key with
  | Some v => Ok v
  | None => Raise (KeyError key)
  end.

(** [range(a, b)] *)
Definition py_range (a b : Z) : list Z :=
  map (fun k => a + Z.of_nat k) (seq 0 (Z.to_nat (b - a))).

(** ** Symbolic tensors *)

(** Shape of a 4-d tensor (batch, channels, height, width):
    [size(0)], [size(1)], [size(-2)], [size(-1)]. *)
Record shape4 := Shape4 { size0 : Z; size1 : Z; size_m2 : Z; size_m1 : Z }.

Inductive texpr :=
| TVar (name : string)                       (* a value handed in by the caller *)
| TCall (fn : string) (args : list texpr)    (* result of a collaborator's call *)
| TItem (i : nat) (t : texpr)                (* t[i] of a returned tuple *)
| TKey (key : string) (t : texpr)            (* t[key] of a mapping *)
| TDiffuse (latents : texpr) (shift loss_shift : Z) (epsilon : texpr)
| TGenerator (noised noise_cond conditions : texpr)
| TMseLoss (pred target : texpr) (reduction : string)
| TRandn (draw : nat) (shp : shape4)         (* torch.randn(n, c, h, w), draw-th draw *)
| TRandnLike (draw : nat) (t : texpr)        (* torch.randn_like(t) *)
| TInterpolate (t : texpr) (size : Z * Z) (mode : string)
| TAdd (a b : texpr)
| TMul (a b : texpr)
| TMulScalar (a : texpr) (m : Q)
| TDivPow (a : texpr) (base expo : Q)        (* a / base ** expo *)
| TDivInt (a : texpr) (n : Z)
| TMeanDim (a : texpr) (dims : list Z)       (* a.mean(dim=dims) *)
| TMean (a : texpr).                         (* a.mean() *)

(** ** Floating-point values *)

Module Float.

(** [2 ^ k], for any integer [k]. *)
Definition pow2 (k : Z) : Q := Qpower 2 k.

(** The exponent of a positive number: [2 ^ e <= q < 2 ^ (e + 1)]. *)
Definition ilog2 (q : Q) : Z :=
  let e := Z.log2 (Qnum q) - Z.log2 (Zpos (Qden q)) in
  if Qle_bool (pow2 e) q then e else e - 1.

(** The nearest integer, ties to the even one. *)
Definition round_half_even (x : Q) : Z :=
  let f := Qfloor x in
  match Qcompare (x - inject_Z f) (1 # 2) with
  | Lt => f
  | Gt => f + 1
  | Eq => if Z.even f then f else f + 1
  end.

(** A binary format: significand bits, least and greatest exponent of a
    normal number. *)
Record format := { prec : Z; emin : Z; emax : Z }.

Definition binary32 : format := {| prec := 24; emin := -126; emax := 127 |}.
Definition binary64 : format := {| prec := 53; emin := -1022; emax := 1023 |}.

(** Rounding to nearest, ties to even: the value of the format nearest to
    [q], in lowest terms, or [None] when [q] rounds to an infinity. *)
Definition round (fmt : format) (q : Q) : option Q :=
  if Qeq_bool q 0 then Some 0%Q
  else
    let a := Qabs q in
    let k := Z.max (ilog2 a) (emin fmt) - (prec fmt - 1) in
    let r := (inject_Z (round_half_even (a / pow2 k)) * pow2 k)%Q in
    if Qle_bool (pow2 (emax fmt + 1)) r then None
    else Some (Qred (if Qle_bool 0 q then r else - r)).

(** An element of a floating-point tensor. *)
Inductive fval :=
| FNaN
| FInf (negative : bool)
| FFin (q : Q).

(** Conversion of a number to [torch.float32], the default dtype. *)
Definition to_float32 (q : Q) : fval :=
  match round binary32 q with
  | Some r => FFin r
  | None => FInf (negb (Qle_bool 0 q))
  end.

(** [x.float()] on one element. *)
Definition float (x : fval) : fval :=
  match x with
  | FFin q => to_float32 q
  | _ => x
  end.

(** The double [x * y] of an integer below [2 ^ 53] and a double. *)
Definition mul64 (x : Z) (y : Q) : option Q :=
  round binary64 (inject_Z x * y).

End Float.

(** A 1-d tensor of dtype float32. *)
Inductive tensor1 := Tensor1 (data : list Float.fval).

(** [torch.tensor(l)] on a list of Python floats (finite ones): every
    number is converted to float32. *)
Definition torch_tensor (l : list Q) : tensor1 :=
  Tensor1 (map Float.to_float32 l).

(** ** Run information *)

(** [TrainingCore.InfoDTO], as far as this file reads or writes it. *)
Record InfoDTO := Info {
  total_steps : Z;
  adaptive_loss : option (gmap string (list Q))
}.

(** ** The world and its monad *)

Inductive event :=
| ECall (res : texpr) (grad : bool) (amp : option string)
| EBackward (loss : texpr) (sync : bool)
| EClipGradNorm (params : string) (max_norm : Q)
| EOptimStep (k : string)
| ESchedStep (k : string)
| EZeroGrad (k : string) (set_to_none : bool)
| EUpdateBuckets (logSNR loss : texpr)
| ESetTotalSteps (n : Z).

Record world := World {
  trace : list event;          (* effects so far, oldest first *)
  draws : nat;                 (* random tensors drawn so far *)
  grad_enabled : bool;         (* torch.is_grad_enabled() *)
  autocast : option string;    (* dtype of the enclosing autocast, if any *)
  grad_sync : bool;            (* generator.require_backward_grad_sync *)
  info : InfoDTO               (* self.info *)
}.

Definition M (A : Type) : Type := world -> result A * world.

Definition ret {A} (a : A) : M A := fun w => (Ok a, w).

Definition bind {A B} (m : M A) (k : A -> M B) : M B :=
  fun w => match m w with
           | (Ok a, w') => k a w'
           | (Raise e, w') => (Raise e, w')
           end.

Definition raise {A} (e : exn) : M A := fun w => (Raise e, w).

Notation "x <- c1 ;; c2" := (bind c1 (fun x => c2))
  (at level 100, c1 at next level, right associativity).
Notation "c1 ;;; c2" := (bind c1 (fun _ => c2))
  (at level 100, right associativity).

Definition emit (e : event) : M unit :=
  fun w => (Ok tt, World (trace w ++ [e]) (draws w) (grad_enabled w)
                         (autocast w) (grad_sync w) (info w)).

(** A call of a collaborator: the result is logged with the modes in force. *)
Definition call (res : texpr) : M texpr :=
  fun w => (Ok res, World (trace w ++ [ECall res (grad_enabled w) (autocast w)])
                          (draws w) (grad_enabled w) (autocast w)
                          (grad_sync w) (info w)).

(** A random draw: numbered by the generator state, then logged as a call. *)
Definition draw (mk : nat -> texpr) : M texpr :=
  fun w => call (mk (draws w))
             (World (trace w) (S (draws w)) (grad_enabled w) (autocast w)
                    (grad_sync w) (info w)).

Definition set_grad_enabled (b : bool) : M unit :=
  fun w => (Ok tt, World (trace w) (draws w) b (autocast w)
                         (grad_sync w) (info w)).

Definition set_autocast (a : option string) : M unit :=
  fun w => (Ok tt, World (trace w) (draws w) (grad_enabled w) a
                         (grad_sync w) (info w)).

Definition set_grad_sync (b : bool) : M unit :=
  fun w => (Ok tt, World (trace w) (draws w) (grad_enabled w) (autocast w)
                         b (info w)).

(** [self.info.total_steps = n] *)
Definition set_total_steps (n : Z) : M unit :=
  fun w => (Ok tt, World (trace w ++ [ESetTotalSteps n]) (draws w)
                         (grad_enabled w) (autocast w) (grad_sync w)
                         (Info n (adaptive_loss (info w)))).

Definition get {A} (f : world -> A) : M A := fun w => (Ok (f w), w).

(** [with cm: body]: [enter] yields the value to restore; [leave] runs
    whether [body] returns or raises. *)
Definition with_ {S A} (enter : M S) (leave : S -> M unit) (body : M A) : M A :=
  fun w => match enter w with
           | (Ok s, w1) =>
               match body w1 with
               | (r, w2) => match leave s w2 with
                            | (Ok _, w3) => (r, w3)
                            | (Raise e, w3) => (Raise e, w3)
                            end
               end
           | (Raise e, w1) => (Raise e, w1)
           end.

(** [torch.no_grad()] *)
Definition no_grad {A} (body : M A) : M A :=
  with_ (old <- get grad_enabled ;; set_grad_enabled false ;;; ret old)
        set_grad_enabled body.

(** [torch.cuda.amp.autocast(dtype=...)] *)
Definition amp_autocast {A} (dtype : string) (body : M A) : M A :=
  with_ (old <- get autocast ;; set_autocast (Some dtype) ;;; ret old)
        set_autocast body.

(** [models.generator.no_sync()] *)
Definition no_sync {A} (body : M A) : M A :=
  with_ (old <- get grad_sync ;; set_grad_sync false ;;; ret old)
        set_grad_sync body.

(** ** Configuration *)

Module Config.

(** [WurstCore.ConfigDTO].  The last four fields are declared by the base
    classes ([TrainingCore.ConfigDTO], [DataCore.ConfigDTO],
    [WarpCore.ConfigDTO]); they are listed because the methods below read
    them. *)
Record ConfigDTO := {
  lr : Q;
  warmup_updates : Z;
  shift : Q;
  model_version : string;
  clip_text_model_name : string;
  stage_a_checkpoint_path : string;
  effnet_checkpoint_path : string;
  generator_checkpoint_path : option string;
  adaptive_loss_weight : pyval;
  grad_accum_steps : Z;
  ema_start_iters : option Z;
  use_fsdp : bool;
  image_size : Z
}.

(** The default a dataclass field is declared with. *)
Inductive field_default :=
| DTO_REQUIRED
| Default (v : pyval).

(** The fields the class body of [WurstCore.ConfigDTO] declares, in order. *)
Definition ConfigDTO_fields : list (string * field_default) :=
  [ ("lr", DTO_REQUIRED);
    ("warmup_updates", DTO_REQUIRED);
    ("shift", DTO_REQUIRED);
    ("model_version", DTO_REQUIRED);
    ("clip_text_model_name",
       Default (PyStr "laion/CLIP-ViT-bigG-14-laion2B-39B-b160k"));
    ("stage_a_checkpoint_path", DTO_REQUIRED);
    ("effnet_checkpoint_path", DTO_REQUIRED);
    ("generator_checkpoint_path", Default PyNone);
    ("adaptive_loss_weight", Default PyNone) ].

(** The arguments of the [@dataclass(...)] decorator. *)
Record dataclass_params := { frozen : bool }.

(** [@dataclass(frozen=True)] on [ConfigDTO] *)
Definition ConfigDTO_params : dataclass_params := {| frozen := true |}.

(** [obj.name = v] on an instance of a dataclass: a frozen dataclass
    refuses every assignment. *)
Definition dataclass_setattr {A} (p : dataclass_params) (assign : A -> A)
    (name : string) (obj : A) : result A :=
  if frozen p then Raise (FrozenInstanceError name) else Ok (assign obj).

(** The field table of the class: its own declarations override those it
    inherits. *)
Definition fields_table (inherited : gmap string field_default)
    : gmap string field_default :=
  list_to_map ConfigDTO_fields ∪ inherited.

Definition is_required (d : field_default) : bool :=
  match d with
  | DTO_REQUIRED => true
  | Default _ => false
  end.

(** Required fields the keyword arguments do not supply. *)
Definition missing_fields (table : gmap string field_default)
    (kwargs : gmap string pyval) : gset string :=
  dom (filter (fun kd => is_required kd.2 = true /\ kwargs !! kd.1 = None) table).

(** Keyword arguments that name no field. *)
Definition unknown_fields (table : gmap string field_default)
    (kwargs : gmap string pyval) : gset string :=
  dom kwargs ∖ dom table.

(** The value a field takes: the argument when given, else its default. *)
Definition field_value (d : option field_default) (v : option pyval)
    : option pyval :=
  match d, v with
  | Some _, Some x => Some x
  | Some (Default x), None => Some x
  | _, _ => None
  end.

(** Modelled from the spec: the construction of a configuration record
    from keyword arguments, which [warp_core] (not in src) implements
    through the [DTO_REQUIRED] sentinel.  "Required fields must be present
    or construction fails; no partial/default-filled config for required
    fields", and "unknown/missing required fields are a fatal construction
    error, not a silent default". *)
Definition construct (table : gmap string field_default)
    (kwargs : gmap string pyval) : result (gmap string pyval) :=
  if decide (missing_fields table kwargs = ∅) then
    if decide (unknown_fields table kwargs = ∅) then
      Ok (merge field_value table kwargs)
    else Raise (TypeError "unexpected field")
  else Raise (TypeError "missing required field").

End Config.

(** ** Extras: the diffusion framework object *)

Module Extras.
Import Config.

Inductive loss_weight_class := P2LossWeight | AdaptiveLossWeight.

(** A loss-weight object: its class and the two attributes this file
    assigns; [None] is an attribute the object does not have. *)
Record loss_weight_obj := LossWeight {
  cls : loss_weight_class;
  bucket_ranges : option tensor1;
  bucket_losses : option tensor1
}.

Inductive schedule_obj := CosineSchedule (clamp_range : Q * Q).
Inductive input_scaler_obj := VPScaler.
Inductive target_obj := EpsilonTarget.
Inductive noise_cond_obj := CosineTNoiseCond.

Record GDF := {
  schedule : schedule_obj;
  input_scaler : input_scaler_obj;
  target : target_obj;
  noise_cond : noise_cond_obj;
  loss_weight : loss_weight_obj
}.

(** [DDPMSampler(gdf)] keeps a reference to the one [gdf] object. *)
Inductive sampler_obj := DDPMSampler.

Record sampling_configs_t := {
  cfg : Q;
  sampler : sampler_obj;
  sampling_shift : Z;
  timesteps : Z
}.

Inductive transform :=
| Normalize (mean std : Q * Q * Q)
| ToTensor
| Resize (size : Z) (interpolation : string) (antialias : bool)
| SmartCrop (size : Z) (randomize_p randomize_q : Q).

Record ExtrasDTO := {
  gdf : GDF;
  sampling_configs : sampling_configs_t;
  transforms : list transform;
  effnet_preprocess : list transform;
  clip_preprocess : option (list transform)
}.

(** [isinstance(lw, AdaptiveLossWeight)] *)
Definition isinstance_Adaptive (lw : loss_weight_obj) : bool :=
  match cls lw with
  | AdaptiveLossWeight => true
  | P2LossWeight => false
  end.

Section SetupExtras.

(** The bucket tensors [AdaptiveLossWeight()] starts with; its constructor
    is in [gdf], not in src. *)
Variable init_bucket_ranges init_bucket_losses : tensor1.

(** [AdaptiveLossWeight()] *)
Definition new_AdaptiveLossWeight : loss_weight_obj :=
  LossWeight AdaptiveLossWeight (Some init_bucket_ranges) (Some init_bucket_losses).

(** [P2LossWeight()]: no bucket attribute. *)
Definition new_P2LossWeight : loss_weight_obj :=
  LossWeight P2LossWeight None None.

(** [gdf.loss_weight.bucket_ranges = t] and [... .bucket_losses = t] *)
Definition set_bucket_ranges (t : tensor1) (g : GDF) : GDF :=
  {| schedule := schedule g; input_scaler := input_scaler g;
     target := target g; noise_cond := noise_cond g;
     loss_weight := LossWeight (cls (loss_weight g)) (Some t)
                               (bucket_losses (loss_weight g)) |}.

Definition set_bucket_losses (t : tensor1) (g : GDF) : GDF :=
  {| schedule := schedule g; input_scaler := input_scaler g;
     target := target g; noise_cond := noise_cond g;
     loss_weight := LossWeight (cls (loss_weight g))
                               (bucket_ranges (loss_weight g)) (Some t) |}.

(** [setup_extras_pre(self)] *)
Definition setup_extras_pre (config : ConfigDTO) (info : InfoDTO)
    : result ExtrasDTO :=
  let gdf :=
    {| schedule := CosineSchedule (1 # 10000, 9999 # 10000)%Q;
       input_scaler := VPScaler; target := EpsilonTarget;
       noise_cond := CosineTNoiseCond;
       loss_weight := if is_True (adaptive_loss_weight config)
                      then new_AdaptiveLossWeight else new_P2LossWeight |} in
  let sampling_configs :=
    {| cfg := (3 # 2)%Q; sampler := DDPMSampler;
       sampling_shift := 1; timesteps := 10 |} in
  rbind
    (match adaptive_loss info with
     | Some snapshot =>
         rbind (getitem snapshot "bucket_ranges") (fun ranges =>
         let gdf := set_bucket_ranges (torch_tensor ranges) gdf in
         rbind (getitem snapshot "bucket_losses") (fun losses =>
         Ok (set_bucket_losses (torch_tensor losses) gdf)))
     | None => Ok gdf
     end)
    (fun gdf =>
  let effnet_preprocess :=
    [ Normalize (485 # 1000, 456 # 1000, 406 # 1000)%Q
                (229 # 1000, 224 # 1000, 225 # 1000)%Q ] in
  let transforms :=
    [ ToTensor;
      Resize (image_size config) "BILINEAR" true;
      SmartCrop (image_size config) (3 # 10)%Q (2 # 10)%Q ] in
  Ok {| gdf := gdf; sampling_configs := sampling_configs;
        transforms := transforms; effnet_preprocess := effnet_preprocess;
        clip_preprocess := None |}).

End SetupExtras.



End Extras.

(** ** Models *)

Module Models.
Import Config.

Inductive arch :=
| EfficientNetEncoder
| StageA
| StageB_3B
| StageB_700M
| CLIPTextModel
| CLIPTextProjection.

(** Where a module's parameter values come from. *)
Inductive state_dict :=
| SDFresh (owner : string)          (* initial values of a newly built module *)
| SDFile (path : string)            (* torch.load(path), unwrapped from its
                                       'state_dict' key when it has one *)
| SDPretrained (name : string).     (* from_pretrained(name) *)

Record module := Module_ {
  m_arch : arch;
  params : state_dict;
  training : bool;                  (* False after .eval() *)
  requires_grad : bool;             (* of every parameter *)
  fsdp_wrap : option (list string)  (* FSDP auto-wrap policy, when wrapped *)
}.

(** [Cls().to(self.device)]: a new module in training mode. *)
Definition new_module (a : arch) (owner : string) : module :=
  Module_ a (SDFresh owner) true true None.

(** [m.load_state_dict(sd)], when it succeeds. *)
Definition load_state_dict (sd : state_dict) (m : module) : module :=
  Module_ (m_arch m) sd (training m) (requires_grad m) (fsdp_wrap m).

(** What the loaders meet outside the program: the error, if any, that
    [torch.load(path)] raises (a missing or unreadable file), that
    [load_state_dict] raises when a module of the given architecture is
    handed the given state dict (missing or unexpected keys), and that
    [cls.from_pretrained(name)] raises. *)
Record loaders := {
  torch_load_error : string -> option exn;
  load_state_dict_error : arch -> state_dict -> option exn;
  from_pretrained_error : string -> string -> option exn
}.

(** [torch.load(path, map_location=self.device)] *)
Definition torch_load (env : loaders) (path : string) : result state_dict :=
  match torch_load_error env path with
  | Some e => Raise e
  | None => Ok (SDFile path)
  end.

(** [m.load_state_dict(sd)] on a state dict read from a file. *)
Definition load_checked (env : loaders) (sd : state_dict) (m : module)
    : result module :=
  match load_state_dict_error env (m_arch m) sd with
  | Some e => Raise e
  | None => Ok (load_state_dict sd m)
  end.

(** [cls.from_pretrained(name)] *)
Definition from_pretrained (env : loaders) (cls name : string) : result unit :=
  match from_pretrained_error env cls name with
  | Some e => Raise e
  | None => Ok tt
  end.

(** [m.eval().requires_grad_(False)] *)
Definition eval_requires_grad_False (m : module) : module :=
  Module_ (m_arch m) (params m) false false (fsdp_wrap m).

(** [FSDP(m, **self.fsdp_defaults, auto_wrap_policy=policy, ...)] *)
Definition FSDP (policy : list string) (m : module) : module :=
  Module_ (m_arch m) (params m) (training m) (requires_grad m) (Some policy).

(** Modelled from the spec: [WarpCore.load_model] (in [warp_core], not in
    src) over the checkpoint store, "keyed by logical name"; "loading an
    absent key yields a freshly initialized object, not a failure", that
    is, the module is returned as it was handed in. *)
Definition load_model (store : gmap string state_dict) (m : module)
    (name : string) : module :=
  match store !! name with
  | Some sd => load_state_dict sd m
  | None => m
  end.

Record ModelsDTO := {
  effnet : module;
  stage_a : module;
  generator : module;
  generator_ema : option module;
  clip_tokenizer : string;
  clip_text_model : module;
  clip_text_model_proj : module;
  clip_image_model : option module
}.

Definition policy_3B : list string :=
  ["ResBlock_3B"; "AttnBlock_3B"; "TimestepBlock_3B"; "FeedForwardBlock_3B"].
Definition policy_700M : list string :=
  ["ResBlock_700M"; "AttnBlock_700M"; "TimestepBlock_700M";
   "FeedForwardBlock_700M"].

(** [setup_models(self, extras)]; [env] says which loads fail and [store]
    is the checkpoint store that [self.load_model] reads. *)
Definition setup_models (env : loaders) (config : ConfigDTO)
    (store : gmap string state_dict) : result ModelsDTO :=
  (* EfficientNet encoder *)
  let effnet := new_module EfficientNetEncoder "effnet" in
  rbind (torch_load env (effnet_checkpoint_path config)) (fun effnet_checkpoint =>
  rbind (load_checked env effnet_checkpoint effnet) (fun effnet =>
  let effnet := eval_requires_grad_False effnet in
  (* vqGAN *)
  let stage_a := new_module StageA "stage_a" in
  rbind (torch_load env (stage_a_checkpoint_path config)) (fun stage_a_checkpoint =>
  rbind (load_checked env stage_a_checkpoint stage_a) (fun stage_a =>
  let stage_a := eval_requires_grad_False stage_a in
  (* Diffusion models *)
  rbind
    (if String.eqb (model_version config) "3B" then
       Ok (new_module StageB_3B "generator",
           match ema_start_iters config with
           | Some _ => Some (new_module StageB_3B "generator_ema")
           | None => None
           end)
     else if String.eqb (model_version config) "700M" then
       Ok (new_module StageB_700M "generator",
           match ema_start_iters config with
           | Some _ => Some (new_module StageB_700M "generator_ema")
           | None => None
           end)
     else Raise (ValueError ("Unknown model version " +:+ model_version config)))
    (fun gens =>
  let '(generator, generator_ema) := gens in
  rbind
    (match generator_checkpoint_path config with
     | Some path =>
         rbind (torch_load env path) (fun sd => load_checked env sd generator)
     | None => Ok generator
     end)
    (fun generator =>
  let generator := load_model store generator "generator" in
  let generator_ema :=
    match generator_ema with
    | Some ema =>
        let ema := load_state_dict (params generator) ema in
        let ema := load_model store ema "generator_ema" in
        Some (eval_requires_grad_False ema)
    | None => None
    end in
  let '(generator, generator_ema) :=
    if use_fsdp config then
      let fsdp_auto_wrap_policy :=
        if String.eqb (model_version config) "3B" then policy_3B
        else policy_700M in
      (FSDP fsdp_auto_wrap_policy generator,
       match generator_ema with
       | Some ema => Some (FSDP fsdp_auto_wrap_policy ema)
       | None => None
       end)
    else (generator, generator_ema) in
  (* CLIP encoders *)
  rbind (from_pretrained env "AutoTokenizer" (clip_text_model_name config))
    (fun _ =>
  rbind (from_pretrained env "CLIPModel" (clip_text_model_name config))
    (fun _ =>
  let clip_text_model :=
    eval_requires_grad_False
      (Module_ CLIPTextModel (SDPretrained (clip_text_model_name config))
               true true None) in
  let clip_text_model_proj :=
    eval_requires_grad_False
      (Module_ CLIPTextProjection (SDPretrained (clip_text_model_name config))
               true true None) in
  Ok {| effnet := effnet; stage_a := stage_a;
        generator := generator; generator_ema := generator_ema;
        clip_tokenizer := clip_text_model_name config;
        clip_text_model := clip_text_model;
        clip_text_model_proj := clip_text_model_proj;
        clip_image_model := None |})))))))).




End Models.

(** ** [_pyramid_noise] *)

Module Pyramid.

(** [size_range[0] <= x <= size_range[1]] *)
Definition within (size_range : Z * Z) (x : Z) : bool :=
  (fst size_range <=? x) && (x <=? snd size_range).

(** [0.75 ** i] *)
Definition decay (i : Z) : Q := Qpower (3 # 4) i.

(** [sum([m**2 for m in multipliers])] *)
Definition sum_squares (multipliers : list Q) : Q :=
  fold_left Qplus (map (fun m => Qpower m 2) multipliers) 0%Q.

(** The [if] of the loop body: is level [i] drawn and accumulated? *)
Definition level_used (size_range : option (Z * Z)) (h w : Z) : bool :=
  match size_range with
  | None => true
  | Some r => within r h || within r w
  end.

(** The [for i in range(1, levels)] loop, over the remaining values of [i];
    the loop state is [(epsilon, multipliers)]. *)
Fixpoint loop (shp : shape4) (size_range : option (Z * Z)) (scale_mode : string)
    (todo : list Z) (epsilon : texpr) (multipliers : list Q)
    : M (texpr * list Q) :=
  match todo with
  | [] => ret (epsilon, multipliers)
  | i :: rest =>
      let m := decay i in
      let h := size_m2 shp / 2 ^ i in
      let w := size_m2 shp / 2 ^ i in
      st <-
        (if level_used size_range h w then
           offset <- draw (fun n => TRandn n (Shape4 (size0 shp) (size1 shp) h w)) ;;
           up <- call (TInterpolate offset (size_m2 shp, size_m1 shp) scale_mode) ;;
           ret (TAdd epsilon (TMulScalar up m), multipliers ++ [m])
         else ret (epsilon, multipliers)) ;;
      let '(epsilon, multipliers) := st in
      if (h <=? 1) || (w <=? 1) then ret (epsilon, multipliers)
      else loop shp size_range scale_mode rest epsilon multipliers
  end.

(** [_pyramid_noise(self, epsilon, size_range=None, levels=10,
    scale_mode='nearest')]; [shp] is [epsilon]'s shape. *)
Definition _pyramid_noise (shp : shape4) (epsilon : texpr)
    (size_range : option (Z * Z)) (levels : Z) (scale_mode : string) : M texpr :=
  st <- loop shp size_range scale_mode (py_range 1 levels) epsilon [1%Q] ;;
  let '(epsilon, multipliers) := st in
  ret (TDivPow epsilon (sum_squares multipliers) (1 # 2)).

(** What the loop amounts to, without the state: the levels drawn among
    [todo] for an input of height [H], the accumulated expression and the
    calls logged, the first draw being numbered [d]. *)
Fixpoint levels_used (size_range : option (Z * Z)) (H : Z) (todo : list Z)
    : list Z :=
  match todo with
  | [] => []
  | i :: rest =>
      let h := H / 2 ^ i in
      (if level_used size_range h h then [i] else [])
      ++ (if h <=? 1 then [] else levels_used size_range H rest)
  end.

Definition offset_of (shp : shape4) (d : nat) (i : Z) : texpr :=
  TRandn d (Shape4 (size0 shp) (size1 shp)
                   (size_m2 shp / 2 ^ i) (size_m2 shp / 2 ^ i)).

Definition upsampled (shp : shape4) (scale_mode : string) (d : nat) (i : Z)
    : texpr :=
  TInterpolate (offset_of shp d i) (size_m2 shp, size_m1 shp) scale_mode.

Fixpoint accumulate (shp : shape4) (scale_mode : string) (d : nat)
    (used : list Z) (epsilon : texpr) : texpr :=
  match used with
  | [] => epsilon
  | i :: rest =>
      accumulate shp scale_mode (S d) rest
        (TAdd epsilon (TMulScalar (upsampled shp scale_mode d i) (decay i)))
  end.

Fixpoint level_calls (shp : shape4) (scale_mode : string) (g : bool)
    (a : option string) (d : nat) (used : list Z) : list event :=
  match used with
  | [] => []
  | i :: rest =>
      ECall (offset_of shp d i) g a
      :: ECall (upsampled shp scale_mode d i) g a
      :: level_calls shp scale_mode g a (S d) rest
  end.

End Pyramid.



(** ** The training step *)

Module Step.
Import Config Extras.

(** [for k in d: body(k)], over the keys of a dict in insertion order. *)
Fixpoint for_each (keys : list string) (body : string -> M unit) : M unit :=
  match keys with
  | [] => ret tt
  | k :: rest => body k ;;; for_each rest body
  end.

(** [self.get_conditions(batch, models, extras)], taken as one call: the
    training step uses its result only as the generator's keyword
    arguments. *)
Definition get_conditions (batch : texpr) : M texpr :=
  call (TCall "self.get_conditions" [batch]).

(** [encode_latents(self, batch, models, extras)] *)
Definition encode_latents (batch : texpr) : M texpr :=
  let images := TKey "images" batch in
  encoded <- call (TCall "models.stage_a.encode" [images]) ;;
  ret (TItem 0 encoded).

(** [forward_pass(self, data, extras, models)]; [latent_shape] is the
    shape of the latents the autoencoder returns for the batch. *)
Definition forward_pass (config : ConfigDTO) (extras : ExtrasDTO)
    (latent_shape : shape4) : M (texpr * texpr) :=
  batch <- call (TCall "next" [TVar "data.iterator"]) ;;
  diffused <-
    no_grad (
      conditions <- get_conditions batch ;;
      latents <- encode_latents batch ;;
      epsilon <- draw (fun n => TRandnLike n latents) ;;
      epsilon <- Pyramid._pyramid_noise latent_shape epsilon (Some (1, 16)) 10
                                        "nearest" ;;
      d <- call (TDiffuse latents 1 1 epsilon) ;;
      ret (conditions, d)) ;;
  let '(conditions, d) := diffused in
  let noised := TItem 0 d in
  let target := TItem 2 d in
  let logSNR := TItem 3 d in
  let noise_cond := TItem 4 d in
  let loss_weight := TItem 5 d in
  losses <-
    amp_autocast "torch.bfloat16" (
      pred <- call (TGenerator noised noise_cond conditions) ;;
      mse <- call (TMseLoss pred target "none") ;;
      let loss := TMeanDim mse [1; 2; 3] in
      let loss_adjusted :=
        TDivInt (TMean (TMul loss loss_weight)) (grad_accum_steps config) in
      ret (loss, loss_adjusted)) ;;
  let '(loss, loss_adjusted) := losses in
  (if isinstance_Adaptive (Extras.loss_weight (gdf extras))
   then emit (EUpdateBuckets logSNR loss)
   else ret tt) ;;;
  ret (loss, loss_adjusted).

(** [loss.backward()]: whether the gradients are synchronised across
    devices is decided by the generator's flag at the call. *)
Definition backward (loss : texpr) : M unit :=
  sync <- get grad_sync ;;
  emit (EBackward loss sync).

(** [nn.utils.clip_grad_norm_(params, max_norm)] returns the total norm. *)
Definition clip_grad_norm_ (params : string) (max_norm : Q) : M texpr :=
  emit (EClipGradNorm params max_norm) ;;;
  ret (TCall "clip_grad_norm_" [TVar params]).

(** [backward_pass(self, update, loss, loss_adjusted, models, optimizers,
    schedulers)]; [optimizers] and [schedulers] are the keys of
    [optimizers.to_dict()] and [schedulers.to_dict()], in order.  The local
    [grad_norm] is bound on one branch only; reading it unbound raises. *)
Definition backward_pass (update : bool) (loss loss_adjusted : texpr)
    (optimizers schedulers : list string) : M texpr :=
  grad_norm <-
    (if update then
       backward loss_adjusted ;;;
       grad_norm <- clip_grad_norm_ "models.generator.parameters()" 1%Q ;;
       for_each optimizers (fun k => emit (EOptimStep k)) ;;;
       for_each schedulers (fun k => emit (ESchedStep k)) ;;;
       for_each optimizers (fun k => emit (EZeroGrad k true)) ;;;
       n <- get (fun w => total_steps (info w)) ;;
       set_total_steps (n + 1) ;;;
       ret (Some grad_norm)
     else
       no_sync (backward loss_adjusted) ;;;
       ret None) ;;
  match grad_norm with
  | Some g => ret g
  | None => raise (UnboundLocalError "grad_norm")
  end.

(** The values one [forward_pass] computes, as closed expressions; [d] is
    the number of random tensors drawn before the step. *)
Definition the_batch : texpr := TCall "next" [TVar "data.iterator"].
Definition the_conditions : texpr := TCall "self.get_conditions" [the_batch].
Definition the_encoded : texpr :=
  TCall "models.stage_a.encode" [TKey "images" the_batch].
Definition the_latents : texpr := TItem 0 the_encoded.

Definition pyramid_levels (shp : shape4) : list Z :=
  Pyramid.levels_used (Some (1, 16)) (size_m2 shp) (py_range 1 10).

Definition the_epsilon (shp : shape4) (d : nat) : texpr :=
  TDivPow (Pyramid.accumulate shp "nearest" (S d) (pyramid_levels shp)
                              (TRandnLike d the_latents))
          (Pyramid.sum_squares (1%Q :: map Pyramid.decay (pyramid_levels shp)))
          (1 # 2).

Definition the_diffused (shp : shape4) (d : nat) : texpr :=
  TDiffuse the_latents 1 1 (the_epsilon shp d).

Definition the_pred (shp : shape4) (d : nat) : texpr :=
  TGenerator (TItem 0 (the_diffused shp d)) (TItem 4 (the_diffused shp d))
             the_conditions.

Definition the_mse (shp : shape4) (d : nat) : texpr :=
  TMseLoss (the_pred shp d) (TItem 2 (the_diffused shp d)) "none".

(** per-sample loss: the mean of the element-wise squared error over the
    channel and spatial dimensions *)
Definition the_loss (shp : shape4) (d : nat) : texpr :=
  TMeanDim (the_mse shp d) [1; 2; 3].

(** The calls made inside [with torch.no_grad()], with the modes they are
    logged with when the enclosing autocast state is [a]. *)
Definition no_grad_calls (shp : shape4) (d : nat) (a : option string)
    : list event :=
  [ECall the_conditions false a;
   ECall the_encoded false a;
   ECall (TRandnLike d the_latents) false a]
  ++ Pyramid.level_calls shp "nearest" false a (S d) (pyramid_levels shp)
  ++ [ECall (the_diffused shp d) false a].

(** The gradient-recording mode a call was made in. *)
Definition event_grad (e : event) : option bool :=
  match e with
  | ECall _ g _ => Some g
  | _ => None
  end.

(** The [update_buckets] calls of a trace, with their arguments. *)
Definition bucket_updates (tr : list event) : list (texpr * texpr) :=
  omap (fun e => match e with
                 | EUpdateBuckets logSNR loss => Some (logSNR, loss)
                 | _ => None
                 end) tr.

End Step.

(** ** Conditioning *)

Module Conditions.

(** [int(((n * effnet_factor) // 32) * 32)] for an image side [n] (below
    [2 ^ 53], so that it is a double as it is) and a double
    [effnet_factor]: the product is rounded to a double; dividing a double
    by 32, taking the floor and multiplying by 32 are exact.  (The product
    of a side and a factor below 1 does not overflow; 0 stands for that
    case.) *)
Definition effnet_size (n : Z) (effnet_factor : Q) : Z :=
  match Float.mul64 n effnet_factor with
  | Some product => Qfloor (product / 32) * 32
  | None => 0
  end.

(** The double [0.9]. *)
Definition double_0_9 : Q := 8106479329266893 # 9007199254740992.

(** The images an EfficientNet call is given. *)
Inductive image_src :=
| Images                                        (* batch['images'] *)
| Resized (h w : Z) (interpolation : string).   (* ...functional.resize(images, (h, w), ...) *)

(** One row (one sample) of [effnet_embeddings]: still the zeros it was
    allocated with, or the row the EfficientNet encoder returned for
    sample [j]. *)
Inductive row :=
| ZeroRow
| EffnetRow (j : nat) (src : image_src).

(** A call [models.effnet(extras.effnet_preprocess(src[rows]))]. *)
Record effnet_call := EffnetCall {
  call_src : image_src;
  call_rows : list nat
}.

(** The arguments [super().get_conditions] is called with; its result's
    ['clip_text_pooled'] entry becomes [conditions['clip']]. *)
Record super_call := SuperCall {
  sc_is_eval : bool;
  sc_is_unconditional : bool;
  sc_eval_image_embeds : bool;
  sc_return_fields : list string
}.

Record conditions := {
  effnet : list row;               (* rows of the 'effnet' entry *)
  zeros_hw : option (Z * Z);       (* spatial size of the torch.zeros tensor,
                                      when one is allocated *)
  clip : super_call;               (* the 'clip' entry, by the call it comes from *)
  effnet_calls : list effnet_call  (* the encoder calls made *)
}.

(** [x or default] on an optional list: [None] and the empty list are
    both false. *)
Definition or_default (x : option (list string)) (default : list string)
    : list string :=
  match x with
  | None | Some [] => default
  | Some l => l
  end.

(** [np.random.rand(n) <= 0.9]; [rand j] is the [j]-th number drawn. *)
Definition rand_idx (n : nat) (rand : nat -> Q) : list bool :=
  map (fun j => Qle_bool (rand j) double_0_9) (seq 0 n).

(** [any(mask)] *)
Definition any (mask : list bool) : bool := existsb id mask.

(** The indices a boolean mask selects, [x[mask]]. *)
Definition selected (mask : list bool) : list nat :=
  omap (fun jb : nat * bool => if snd jb then Some (fst jb) else None)
       (zip (seq 0 (length mask)) mask).

(** [get_conditions(self, batch, models, extras, is_eval, is_unconditional,
    eval_image_embeds, return_fields)] for a batch of [n] images of height
    [H] and width [W]; [effnet_factor] is the number
    [np.random.uniform(0.5, 1)] returns and [rand] the numbers
    [np.random.rand] returns, were they drawn.  In training the images are
    resized to the computed sides, which [resize] refuses when a side is
    0: there the function describes the runs in which both sides are at
    least 32. *)
Definition get_conditions (n : nat) (H W : Z)
    (is_eval is_unconditional eval_image_embeds : bool)
    (return_fields : option (list string))
    (effnet_factor : Q) (rand : nat -> Q) : conditions :=
  let '(effnet_embeddings, hw, calls) :=
    if is_eval && negb is_unconditional then
      (map (fun j => EffnetRow j Images) (seq 0 n), None,
       [EffnetCall Images (seq 0 n)])
    else
      let effnet_height := effnet_size H effnet_factor in
      let effnet_width := effnet_size W effnet_factor in
      let zeros := replicate n ZeroRow in
      let hw := Some (effnet_height / 32, effnet_width / 32) in
      if negb is_eval then
        let effnet_images := Resized effnet_height effnet_width "NEAREST" in
        let mask := rand_idx n rand in
        if any mask then
          (map (fun jb : nat * bool =>
                  if snd jb then EffnetRow (fst jb) effnet_images else ZeroRow)
               (zip (seq 0 n) mask),
           hw, [EffnetCall effnet_images (selected mask)])
        else (zeros, hw, [])
      else (zeros, hw, []) in
  {| effnet := effnet_embeddings; zeros_hw := hw;
     clip := SuperCall is_eval is_unconditional eval_image_embeds
                       (or_default return_fields ["clip_text_pooled"]);
     effnet_calls := calls |}.

End Conditions.

(** ** Latents *)

Module Latents.
Import Float.

(** [x.clamp(0, 1)] on one element: [min(max(x, 0), 1)] on numbers, the
    infinities included; a NaN stays a NaN. *)
Definition clamp01 (x : fval) : fval :=
  match x with
  | FNaN => FNaN
  | FInf true => FFin 0
  | FInf false => FFin 1
  | FFin q => FFin (Qmin (Qmax q 0) 1)
  end.

(** An element is in the unit interval, or is not a number. *)
Definition unit_or_nan (x : fval) : Prop :=
  match x with
  | FNaN => True
  | FInf _ => False
  | FFin q => (0 <= q /\ q <= 1)%Q
  end.

Section Decode.

(** [models.stage_a.decode], on the elements of a tensor. *)
Variable stage_a_decode : list fval -> list fval.

(** [decode_latents(self, latents, batch, models, extras)] *)
Definition decode_latents (latents : list fval) : list fval :=
  map clamp01 (stage_a_decode (map float latents)).

End Decode.

End Latents.

(** ** Schedulers and saved models *)

Module Schedule.
Import Config.

(** A [GradualWarmupScheduler] as [setup_schedulers] leaves it. *)
Record scheduler := {
  sched_optimizer : string;
  multiplier : Z;
  total_epoch : Z;
  last_epoch : Z
}.

(** [setup_schedulers(self, extras, models, optimizers)]: the one scheduler
    of [SchedulersDTO(generator=scheduler)]. *)
Definition setup_schedulers (config : ConfigDTO) (info : InfoDTO) : scheduler :=
  {| sched_optimizer := "generator"; multiplier := 1;
     total_epoch := warmup_updates config;
     last_epoch := total_steps info |}.

(** [models_to_save(self)] *)
Definition models_to_save : list string := ["generator"; "generator_ema"].

(** Update passes one after the other, one per pair of losses. *)
Fixpoint update_passes (losses : list (texpr * texpr))
    (optimizers schedulers : list string) : M unit :=
  match losses with
  | [] => ret tt
  | (loss, loss_adjusted) :: rest =>
      Step.backward_pass true loss loss_adjusted optimizers schedulers ;;;
      update_passes rest optimizers schedulers
  end.

(** The number of [step()] calls on scheduler [k], and on optimizer [k],
    in a trace. *)
Definition sched_steps (k : string) (tr : list event) : nat :=
  length (List.filter (fun e => match e with
                                | ESchedStep k' => String.eqb k' k
                                | _ => false
                                end) tr).

Definition optim_steps (k : string) (tr : list event) : nat :=
  length (List.filter (fun e => match e with
                                | EOptimStep k' => String.eqb k' k
                                | _ => false
                                end) tr).

(** The number of times key [k] occurs among the keys of a dict. *)
Definition occurrences (k : string) (keys : list string) : nat :=
  length (List.filter (fun k' => String.eqb k' k) keys).

End Schedule.

(** ** Reading a trace *)

(** The shapes of the random fields [torch.randn] drew, in order. *)
Definition drawn_shapes (tr : list event) : list shape4 :=
  omap (fun e => match e with
                 | ECall (TRandn _ s) _ _ => Some s
                 | _ => None
                 end) tr.

(** * Properties *)

(** ** [_pyramid_noise] *)

Module PyramidFacts.
Import Pyramid.

Lemma loop_run shp size_range scale_mode todo : forall epsilon multipliers w,
  let used := levels_used size_range (size_m2 shp) todo in
  loop shp size_range scale_mode todo epsilon multipliers w =
    (Ok (accumulate shp scale_mode (draws w) used epsilon,
         multipliers ++ map decay used),
     World (trace w ++ level_calls shp scale_mode (grad_enabled w) (autocast w)
                                   (draws w) used)
           (draws w + length used)%nat (grad_enabled w) (autocast w)
           (grad_sync w) (info w)).
Proof.
  induction todo as [|i rest IH]; intros epsilon multipliers [tr d g a sy ts].
  - cbn. unfold ret. cbn. by rewrite !app_nil_r, Nat.add_0_r.
  - cbn [loop levels_used].
    set (h := size_m2 shp / 2 ^ i).
    unfold bind at 1.
    destruct (level_used size_range h h) eqn:Hu.
    + cbn -[loop levels_used Z.div Z.pow].
      rewrite orb_diag. fold h.
      destruct (h <=? 1) eqn:Hh.
      * unfold ret. cbn -[Z.div Z.pow]. fold h.
        rewrite <- !app_assoc. f_equal. f_equal. lia.
      * rewrite IH. cbn -[Z.div Z.pow]. fold h.
        rewrite <- !app_assoc. f_equal. f_equal. lia.
    + cbn -[loop levels_used Z.div Z.pow].
      rewrite orb_diag. fold h.
      destruct (h <=? 1) eqn:Hh.
      * unfold ret. cbn. by rewrite !app_nil_r, Nat.add_0_r.
      * by rewrite IH.
Qed.

Lemma py_range_nil a b : b <= a -> py_range a b = [].
Proof.
  intros Hab. unfold py_range.
  by replace (Z.to_nat (b - a)) with 0%nat by lia.
Qed.

Lemma py_range_cons a b : a < b -> py_range a b = a :: py_range (a + 1) b.
Proof.
  intros Hab. unfold py_range.
  replace (Z.to_nat (b - a)) with (S (Z.to_nat (b - (a + 1)))) by lia.
  cbn [seq map]. f_equal; [lia|].
  rewrite <- seq_shift, map_map. apply map_ext. intros k. lia.
Qed.

(** The levels drawn, said without the loop: level [i] of the range is
    drawn when its size passes the range test and no earlier level had
    shrunk to 1 or below. *)
Lemma levels_used_range size_range H b i : forall n a,
  Z.to_nat (b - a) = n ->
  i ∈ levels_used size_range H (py_range a b) <->
    a <= i < b
    /\ level_used size_range (H / 2 ^ i) (H / 2 ^ i) = true
    /\ forall j, a <= j < i -> 1 < H / 2 ^ j.
Proof.
  induction n as [|n IH]; intros a Hn.
  - rewrite py_range_nil by lia. cbn. split; [by intros ?%elem_of_nil|lia].
  - rewrite py_range_cons by lia. cbn [levels_used].
    rewrite elem_of_app. specialize (IH (a + 1) ltac:(lia)).
    split.
    + intros [Hi|Hi].
      * destruct (level_used size_range (H / 2 ^ a) (H / 2 ^ a)) eqn:Hu;
          [|by apply elem_of_nil in Hi].
        apply list_elem_of_singleton in Hi as ->. repeat split; [lia..|done|lia].
      * destruct (H / 2 ^ a <=? 1) eqn:Hh; [by apply elem_of_nil in Hi|].
        apply IH in Hi as (Hr & Hu & Hj). repeat split; [lia..|done|].
        intros j Hja. destruct (decide (j = a)) as [->|]; [lia|].
        apply Hj. lia.
    + intros (Hr & Hu & Hj).
      destruct (decide (i = a)) as [->|Hne].
      * left. rewrite Hu. by apply list_elem_of_singleton.
      * right. specialize (Hj a ltac:(lia)) as Ha.
        apply Z.leb_gt in Ha. rewrite Ha. apply IH.
        repeat split; [lia..|done|]. intros j Hja. apply Hj. lia.
Qed.

Lemma levels_used_iff size_range H levels i :
  i ∈ levels_used size_range H (py_range 1 levels) <->
    1 <= i < levels
    /\ level_used size_range (H / 2 ^ i) (H / 2 ^ i) = true
    /\ forall j, 1 <= j < i -> 1 < H / 2 ^ j.
Proof. by eapply levels_used_range. Qed.

(** On a square input the field of level [i] has both spatial dimensions
    of the input divided by [2 ^ i]. *)
Lemma offset_of_square shp d i :
  size_m1 shp = size_m2 shp ->
  offset_of shp d i =
    TRandn d (Shape4 (size0 shp) (size1 shp)
                     (size_m2 shp / 2 ^ i) (size_m1 shp / 2 ^ i)).
Proof. intros Hsq. unfold offset_of. by rewrite Hsq. Qed.

(** The training step's call on a 64 x 64 latent: levels 2 to 6 are drawn
    (32 is outside [1, 16]; level 6 has size 1 and ends the loop). *)
Example levels_used_64 :
  levels_used (Some (1, 16)) 64 (py_range 1 10) = [2; 3; 4; 5; 6].
Proof. reflexivity. Qed.

Lemma _pyramid_noise_run shp epsilon size_range levels scale_mode w :
  let used := levels_used size_range (size_m2 shp) (py_range 1 levels) in
  _pyramid_noise shp epsilon size_range levels scale_mode w =
    (Ok (TDivPow (accumulate shp scale_mode (draws w) used epsilon)
                 (sum_squares (1%Q :: map decay used)) (1 # 2)),
     World (trace w ++ level_calls shp scale_mode (grad_enabled w) (autocast w)
                                   (draws w) used)
           (draws w + length used)%nat (grad_enabled w) (autocast w)
           (grad_sync w) (info w)).
Proof.
  intros used. unfold _pyramid_noise, bind. by rewrite loop_run.
Qed.

(** C3, on a latent that is not square: for a 4 x 8 input, with the
    size range and level count of the training step, the two random
    fields drawn have shapes 2 x 2 and 1 x 1, their widths being derived
    from the input's height, where dividing each spatial dimension by 2 and
    by 4 gives 2 x 4 and 1 x 2. *)
Theorem pyramid_noise_width_from_height :
  let shp := Shape4 1 4 4 8 in
  forall w,
    fst (_pyramid_noise shp (TVar "epsilon") (Some (1, 16)) 10 "nearest" w) =
      Ok (TDivPow
            (TAdd
               (TAdd (TVar "epsilon")
                  (TMulScalar
                     (TInterpolate (TRandn (draws w) (Shape4 1 4 2 2))
                                   (4, 8) "nearest")
                     (3 # 4)))
               (TMulScalar
                  (TInterpolate (TRandn (S (draws w)) (Shape4 1 4 1 1))
                                (4, 8) "nearest")
                  (9 # 16)))
            (sum_squares [1%Q; (3 # 4)%Q; (9 # 16)%Q]) (1 # 2))
    /\ Shape4 1 4 2 2 <> Shape4 1 4 (size_m2 shp / 2 ^ 1) (size_m1 shp / 2 ^ 1)
    /\ Shape4 1 4 1 1 <> Shape4 1 4 (size_m2 shp / 2 ^ 2) (size_m1 shp / 2 ^ 2).
Proof.
  intros shp w. split; [|split].
  - by rewrite _pyramid_noise_run.
  - discriminate.
  - discriminate.
Qed.

End PyramidFacts.

(** ** Configuration *)

Module ConfigFacts.
Import Config.

Lemma own_field inherited k d :
  (list_to_map ConfigDTO_fields : gmap string field_default) !! k = Some d ->
  fields_table inherited !! k = Some d.
Proof. apply lookup_union_Some_l. Qed.

Lemma required_supplied table kwargs k :
  table !! k = Some DTO_REQUIRED ->
  missing_fields table kwargs = ∅ ->
  is_Some (kwargs !! k).
Proof.
  intros Hk Hm. unfold missing_fields in Hm. apply dom_empty_inv_L in Hm.
  destruct (kwargs !! k) as [v|] eqn:Hv; [by eexists|].
  exfalso. by eapply (map_filter_empty_not_lookup _ _ k DTO_REQUIRED) in Hm.
Qed.

Lemma construct_lookup table kwargs cfg k :
  construct table kwargs = Ok cfg ->
  cfg !! k = field_value (table !! k) (kwargs !! k).
Proof.
  unfold construct. repeat case_decide; try discriminate.
  intros [= <-]. rewrite lookup_merge.
  by destruct (table !! k), (kwargs !! k).
Qed.

Ltac required_cases H :=
  repeat (apply elem_of_cons in H as [->|H]); [..|by apply elem_of_nil in H].

(** C8: a configuration is constructed only when [lr], [warmup_updates],
    [shift], [model_version], [stage_a_checkpoint_path] and
    [effnet_checkpoint_path] are all supplied, and then holds the supplied
    values; [clip_text_model_name], [generator_checkpoint_path] and
    [adaptive_loss_weight] take their declared defaults when left out; and
    no field of a constructed record can be assigned. *)
Theorem config_required_and_frozen inherited kwargs :
  let table := fields_table inherited in
  let required := ["lr"; "warmup_updates"; "shift"; "model_version";
                   "stage_a_checkpoint_path"; "effnet_checkpoint_path"] in
  (forall k, k ∈ required -> kwargs !! k = None ->
     construct table kwargs = Raise (TypeError "missing required field"))
  /\ (forall cfg, construct table kwargs = Ok cfg ->
        (forall k, k ∈ required ->
           exists v, kwargs !! k = Some v /\ cfg !! k = Some v)
        /\ cfg !! "clip_text_model_name" =
             Some (default (PyStr "laion/CLIP-ViT-bigG-14-laion2B-39B-b160k")
                           (kwargs !! "clip_text_model_name"))
        /\ cfg !! "generator_checkpoint_path" =
             Some (default PyNone (kwargs !! "generator_checkpoint_path"))
        /\ cfg !! "adaptive_loss_weight" =
             Some (default PyNone (kwargs !! "adaptive_loss_weight")))
  /\ (forall (A : Type) (assign : A -> A) name (obj : A),
        dataclass_setattr ConfigDTO_params assign name obj =
          Raise (FrozenInstanceError name)).
Proof.
  intros table required.
  assert (Hreq : forall k, k ∈ required -> table !! k = Some DTO_REQUIRED).
  { intros k Hk. required_cases Hk; by apply own_field. }
  split; [|split].
  - intros k Hk Hnone. unfold construct.
    case_decide as Hm; [|done].
    destruct (required_supplied table kwargs k (Hreq k Hk) Hm) as [v Hv].
    congruence.
  - intros cfg Hc. split; [|split; [|split]].
    + intros k Hk.
      assert (Hm : missing_fields table kwargs = ∅).
      { unfold construct in Hc. by case_decide. }
      destruct (required_supplied table kwargs k (Hreq k Hk) Hm) as [v Hv].
      exists v. split; [done|].
      by rewrite (construct_lookup _ _ _ _ Hc), (Hreq k Hk), Hv.
    + rewrite (construct_lookup _ _ _ _ Hc).
      unfold table. erewrite own_field by reflexivity.
      by destruct (kwargs !! _).
    + rewrite (construct_lookup _ _ _ _ Hc).
      unfold table. erewrite own_field by reflexivity.
      by destruct (kwargs !! _).
    + rewrite (construct_lookup _ _ _ _ Hc).
      unfold table. erewrite own_field by reflexivity.
      by destruct (kwargs !! _).
  - reflexivity.
Qed.

Definition full_kwargs : gmap string pyval :=
  list_to_map
    [ ("lr", PyFloat (1 # 10000)); ("warmup_updates", PyInt 1);
      ("shift", PyInt 4); ("model_version", PyStr "3B");
      ("stage_a_checkpoint_path", PyStr "models/stage_a.safetensors");
      ("effnet_checkpoint_path", PyStr "models/effnet_encoder.safetensors") ].

Lemma config_required_and_frozen_witness :
  construct (fields_table ∅) (delete "model_version" full_kwargs) =
    Raise (TypeError "missing required field")
  /\ exists cfg,
       construct (fields_table ∅) full_kwargs = Ok cfg
       /\ cfg !! "model_version" = Some (PyStr "3B")
       /\ cfg !! "adaptive_loss_weight" = Some PyNone.
Proof.
  split.
  - apply (proj1 (config_required_and_frozen ∅
                    (delete "model_version" full_kwargs)) "model_version").
    + repeat constructor.
    + reflexivity.
  - destruct (construct (fields_table ∅) full_kwargs) as [cfg|e] eqn:Hc;
      [|vm_compute in Hc; discriminate].
    exists cfg. split; [reflexivity|].
    destruct (proj1 (proj2 (config_required_and_frozen ∅ full_kwargs))
                cfg Hc) as (Hreq & _ & _ & Hadaptive).
    split; [|exact Hadaptive].
    destruct (Hreq "model_version" ltac:(repeat constructor)) as (v & Hv & ->).
    vm_compute in Hv. exact (eq_sym Hv).
Defined.

End ConfigFacts.

(** ** Extras *)

Module ExtrasFacts.
Import Config Extras.





Definition example_config : ConfigDTO :=
  {| lr := (1 # 10000)%Q; warmup_updates := 1; shift := 4%Q;
     model_version := "3B";
     clip_text_model_name := "laion/CLIP-ViT-bigG-14-laion2B-39B-b160k";
     stage_a_checkpoint_path := "models/stage_a.safetensors";
     effnet_checkpoint_path := "models/effnet_encoder.safetensors";
     generator_checkpoint_path := None;
     adaptive_loss_weight := PyBool true;
     grad_accum_steps := 4; ema_start_iters := Some 5000;
     use_fsdp := true; image_size := 1024 |}.

Definition example_snapshot : gmap string (list Q) :=
  <["bucket_ranges" := [(-5)%Q; 0%Q; 5%Q]]>
    (<["bucket_losses" := [1%Q; (1 # 2)%Q; 1%Q; 1%Q]]> ∅).





(** C10: the adaptive variant is built exactly when
    [config.adaptive_loss_weight] is the boolean [True]; [None], every
    string and every other value give the P2 variant, and the P2 object
    then still receives the bucket attributes of a restored snapshot. *)
Theorem adaptive_only_when_True r0 l0 config info ex :
  setup_extras_pre r0 l0 config info = Ok ex ->
  (cls (loss_weight (gdf ex)) = AdaptiveLossWeight
     <-> adaptive_loss_weight config = PyBool true)
  /\ (adaptive_loss_weight config = PyNone ->
      cls (loss_weight (gdf ex)) = P2LossWeight)
  /\ (forall s, adaptive_loss_weight config = PyStr s ->
      cls (loss_weight (gdf ex)) = P2LossWeight)
  /\ (adaptive_loss_weight config <> PyBool true ->
      forall snapshot, adaptive_loss info = Some snapshot ->
      exists ranges losses,
        snapshot !! "bucket_ranges" = Some ranges
        /\ snapshot !! "bucket_losses" = Some losses
        /\ loss_weight (gdf ex) =
             LossWeight P2LossWeight (Some (torch_tensor ranges))
                        (Some (torch_tensor losses))).
Proof.
  intros Hex.
  assert (Hcls : cls (loss_weight (gdf ex)) =
                 if is_True (adaptive_loss_weight config)
                 then AdaptiveLossWeight else P2LossWeight).
  { unfold setup_extras_pre, getitem in Hex.
    destruct (adaptive_loss info) as [snapshot|]; cbn in Hex.
    - destruct (snapshot !! "bucket_ranges"); cbn in Hex; [|discriminate].
      destruct (snapshot !! "bucket_losses"); cbn in Hex; [|discriminate].
      injection Hex as <-. cbn.
      by destruct (is_True (adaptive_loss_weight config)).
    - injection Hex as <-. cbn.
      by destruct (is_True (adaptive_loss_weight config)). }
  repeat split.
  - rewrite Hcls. destruct (adaptive_loss_weight config) as [|[]| | |]; done.
  - intros Hv. by rewrite Hcls, Hv.
  - intros Hv. by rewrite Hcls, Hv.
  - intros s Hv. by rewrite Hcls, Hv.
  - intros Hv snapshot Hs.
    unfold setup_extras_pre, getitem in Hex. rewrite Hs in Hex. cbn in Hex.
    destruct (snapshot !! "bucket_ranges") as [ranges|]; cbn in Hex; [|discriminate].
    destruct (snapshot !! "bucket_losses") as [losses|]; cbn in Hex; [|discriminate].
    exists ranges, losses. repeat split. injection Hex as <-. cbn.
    destruct (adaptive_loss_weight config) as [|[]| | |]; done.
Qed.

Definition string_config : ConfigDTO :=
  {| lr := (1 # 10000)%Q; warmup_updates := 1; shift := 4%Q;
     model_version := "700M";
     clip_text_model_name := "laion/CLIP-ViT-bigG-14-laion2B-39B-b160k";
     stage_a_checkpoint_path := "models/stage_a.safetensors";
     effnet_checkpoint_path := "models/effnet_encoder.safetensors";
     generator_checkpoint_path := None;
     adaptive_loss_weight := PyStr "True";
     grad_accum_steps := 1; ema_start_iters := None;
     use_fsdp := false; image_size := 512 |}.

Lemma adaptive_only_when_True_witness :
  exists ex,
    setup_extras_pre (torch_tensor []) (torch_tensor []) string_config
                     (Info 7 (Some example_snapshot)) = Ok ex
    /\ cls (loss_weight (gdf ex)) = P2LossWeight.
Proof.
  eexists. split; [reflexivity|].
  apply (proj1 (proj2 (proj2
           (adaptive_only_when_True (torch_tensor []) (torch_tensor [])
              string_config (Info 7 (Some example_snapshot)) _ eq_refl)))
           "True" eq_refl).
Defined.

End ExtrasFacts.

(** ** Models *)

Module ModelsFacts.
Import Config Models.

(** Case analysis on a run of [setup_models]: every load either fails,
    which ends the run, or succeeds. *)
Ltac crack H :=
  repeat first
    [ discriminate H
    | progress cbn in H
    | match type of H with
      | context [torch_load_error ?e ?p] =>
          destruct (torch_load_error e p) eqn:?
      | context [load_state_dict_error ?e ?a ?sd] =>
          destruct (load_state_dict_error e a sd) eqn:?
      | context [from_pretrained_error ?e ?c ?n] =>
          destruct (from_pretrained_error e c n) eqn:?
      | context [String.eqb ?x ?y] => destruct (String.eqb x y) eqn:?
      | context [generator_checkpoint_path ?c] =>
          destruct (generator_checkpoint_path c) eqn:?
      | context [ema_start_iters ?c] => destruct (ema_start_iters c) eqn:?
      | context [use_fsdp ?c] => destruct (use_fsdp c) eqn:?
      | context [?s !! ?k] => destruct (s !! k) eqn:?
      end ].

Ltac unfold_setup H :=
  unfold setup_models, torch_load, load_checked, from_pretrained, load_model
    in H.

Lemma version_cases (v : string) :
  v = "3B" \/ v = "700M" \/ (v <> "3B" /\ v <> "700M").
Proof.
  destruct (decide (v = "3B")); [by left|].
  destruct (decide (v = "700M")); [by right; left|]. by right; right.
Qed.





(** Every load succeeds. *)
Definition all_load : loaders :=
  {| torch_load_error := fun _ => None;
     load_state_dict_error := fun _ _ => None;
     from_pretrained_error := fun _ _ => None |}.








End ModelsFacts.

(** ** The training step *)

Module StepFacts.
Import Config Extras Step.

Lemma for_each_emit (f : string -> event) keys : forall w,
  for_each keys (fun k => emit (f k)) w =
    (Ok tt, World (trace w ++ map f keys) (draws w) (grad_enabled w)
                  (autocast w) (grad_sync w) (info w)).
Proof.
  induction keys as [|k rest IH]; intros [tr d g a sy i]; cbn.
  - unfold ret. by rewrite app_nil_r.
  - unfold bind, emit. cbn. rewrite IH. cbn. by rewrite <- app_assoc.
Qed.

(** C1: with [update] true, [backward_pass] back-propagates the adjusted
    loss, clips the generator's gradient norm at 1.0, steps every
    optimizer, steps every scheduler, zeroes every optimizer's gradients
    and adds one to [info.total_steps], in this order, and returns the
    gradient norm. *)
Theorem backward_pass_update loss loss_adjusted optimizers schedulers w :
  backward_pass true loss loss_adjusted optimizers schedulers w =
    (Ok (TCall "clip_grad_norm_" [TVar "models.generator.parameters()"]),
     World (trace w
            ++ [EBackward loss_adjusted (grad_sync w);
                EClipGradNorm "models.generator.parameters()" 1%Q]
            ++ map EOptimStep optimizers
            ++ map ESchedStep schedulers
            ++ map (fun k => EZeroGrad k true) optimizers
            ++ [ESetTotalSteps (total_steps (info w) + 1)])
           (draws w) (grad_enabled w) (autocast w) (grad_sync w)
           (Info (total_steps (info w) + 1) (adaptive_loss (info w)))).
Proof.
  destruct w as [tr d g a sy i].
  unfold backward_pass, backward, clip_grad_norm_, bind at 1 2 3 4 5.
  cbn -[for_each].
  unfold bind at 1. rewrite for_each_emit. cbn -[for_each].
  unfold bind at 1. rewrite for_each_emit. cbn -[for_each].
  unfold bind at 1. rewrite for_each_emit. cbn.
  by rewrite <- !app_assoc.
Qed.

Example backward_pass_update_generator :
  backward_pass true (TVar "loss") (TVar "loss_adjusted")
                ["generator"] ["generator"]
                (World [] 0 true None true (Info 41 None)) =
    (Ok (TCall "clip_grad_norm_" [TVar "models.generator.parameters()"]),
     World [ EBackward (TVar "loss_adjusted") true;
             EClipGradNorm "models.generator.parameters()" 1%Q;
             EOptimStep "generator"; ESchedStep "generator";
             EZeroGrad "generator" true; ESetTotalSteps 42 ]
           0 true None true (Info 42 None)).
Proof. reflexivity. Qed.

(** C2, what the code does with [update] false: the adjusted loss is
    back-propagated once with gradient synchronisation off, no optimizer or
    scheduler is stepped, no gradient is zeroed, [info] and the modes are
    as before, and the final [return grad_norm] raises
    [UnboundLocalError], the name being bound on the other branch only. *)
Theorem backward_pass_no_update loss loss_adjusted optimizers schedulers w :
  backward_pass false loss loss_adjusted optimizers schedulers w =
    (Raise (UnboundLocalError "grad_norm"),
     World (trace w ++ [EBackward loss_adjusted false])
           (draws w) (grad_enabled w) (autocast w) (grad_sync w) (info w)).
Proof. by destruct w. Qed.

Lemma forward_pass_run config extras shp w :
  let d := draws w in
  forward_pass config extras shp w =
    (Ok (the_loss shp d,
         TDivInt (TMean (TMul (the_loss shp d) (TItem 5 (the_diffused shp d))))
                 (grad_accum_steps config)),
     World (trace w
            ++ [ECall the_batch (grad_enabled w) (autocast w)]
            ++ no_grad_calls shp d (autocast w)
            ++ [ECall (the_pred shp d) (grad_enabled w) (Some "torch.bfloat16");
                ECall (the_mse shp d) (grad_enabled w) (Some "torch.bfloat16")]
            ++ (if isinstance_Adaptive (Extras.loss_weight (gdf extras))
                then [EUpdateBuckets (TItem 3 (the_diffused shp d)) (the_loss shp d)]
                else []))
           (S d + length (pyramid_levels shp))%nat (grad_enabled w) (autocast w)
           (grad_sync w) (info w)).
Proof.
  destruct w as [tr d g a sy i]. cbn [draws].
  unfold forward_pass, no_grad, amp_autocast, with_, get_conditions,
    encode_latents, draw, call, bind, get, set_grad_enabled, set_autocast, ret.
  cbn -[Pyramid._pyramid_noise].
  rewrite PyramidFacts._pyramid_noise_run.
  cbn -[Pyramid.levels_used Pyramid.accumulate Pyramid.level_calls
        Pyramid.sum_squares py_range].
  unfold no_grad_calls, the_loss, the_mse, the_pred, the_diffused, the_epsilon,
    the_latents, the_encoded, the_conditions, the_batch, pyramid_levels.
  destruct (isinstance_Adaptive (loss_weight (gdf extras)));
    unfold emit; cbn -[Pyramid.levels_used Pyramid.accumulate
                       Pyramid.level_calls Pyramid.sum_squares py_range];
    rewrite <- ?app_assoc; cbn -[Pyramid.levels_used Pyramid.accumulate
                       Pyramid.level_calls Pyramid.sum_squares py_range];
    rewrite <- ?app_assoc; try rewrite app_nil_r; reflexivity.
Qed.

Lemma level_calls_are_calls shp scale_mode g a used : forall d,
  Forall (fun e => event_grad e = Some g)
         (Pyramid.level_calls shp scale_mode g a d used).
Proof.
  induction used as [|i rest IH]; intros d; cbn; [constructor|].
  repeat constructor. apply IH.
Qed.

Lemma no_grad_calls_untracked shp d a :
  Forall (fun e => event_grad e = Some false) (no_grad_calls shp d a).
Proof.
  unfold no_grad_calls. repeat (apply Forall_cons; split; [done|]).
  apply Forall_app. split; [apply level_calls_are_calls|].
  by repeat constructor.
Qed.

(** C4: a forward pass entered with gradient recording on makes its calls
    for the conditions, the latent encoding, the pyramid noise and the
    noising with gradient recording off, then calls the generator and the
    squared-error loss with recording on (under bfloat16 autocast), and
    returns, second, the mean of per-sample loss times loss weight divided
    by [config.grad_accum_steps]. *)
Theorem forward_pass_untracked_then_tracked config extras shp w :
  grad_enabled w = true ->
  let d := draws w in
  let r := forward_pass config extras shp w in
  fst r = Ok (the_loss shp d,
              TDivInt (TMean (TMul (the_loss shp d)
                                   (TItem 5 (the_diffused shp d))))
                      (grad_accum_steps config))
  /\ trace (snd r) =
       trace w
       ++ [ECall the_batch true (autocast w)]
       ++ no_grad_calls shp d (autocast w)
       ++ [ECall (the_pred shp d) true (Some "torch.bfloat16");
           ECall (the_mse shp d) true (Some "torch.bfloat16")]
       ++ (if isinstance_Adaptive (Extras.loss_weight (gdf extras))
           then [EUpdateBuckets (TItem 3 (the_diffused shp d)) (the_loss shp d)]
           else [])
  /\ Forall (fun e => event_grad e = Some false)
            (no_grad_calls shp d (autocast w))
  /\ grad_enabled (snd r) = true.
Proof.
  intros Hg d r. subst r. rewrite forward_pass_run. cbn [fst snd trace grad_enabled].
  rewrite Hg. repeat split. apply no_grad_calls_untracked.
Qed.

Definition example_extras : ExtrasDTO :=
  match setup_extras_pre (torch_tensor []) (torch_tensor [])
          ExtrasFacts.example_config (Info 0 None) with
  | Ok ex => ex
  | Raise _ =>
      {| gdf := {| schedule := CosineSchedule (0, 1)%Q;
                   input_scaler := VPScaler; target := EpsilonTarget;
                   noise_cond := CosineTNoiseCond;
                   loss_weight := new_P2LossWeight |};
         sampling_configs := {| cfg := 1%Q; sampler := DDPMSampler;
                                sampling_shift := 1; timesteps := 1 |};
         transforms := []; effnet_preprocess := []; clip_preprocess := None |}
  end.

Definition example_world : world := World [] 0 true None true (Info 0 None).

Lemma forward_pass_untracked_then_tracked_witness :
  fst (forward_pass ExtrasFacts.example_config example_extras
                    (Shape4 2 4 64 64) example_world)
  = Ok (the_loss (Shape4 2 4 64 64) 0,
        TDivInt (TMean (TMul (the_loss (Shape4 2 4 64 64) 0)
                             (TItem 5 (the_diffused (Shape4 2 4 64 64) 0)))) 4).
Proof.
  exact (proj1 (forward_pass_untracked_then_tracked ExtrasFacts.example_config
                  example_extras (Shape4 2 4 64 64) example_world eq_refl)).
Defined.

(** One step on a 2 x 2 latent, where the pyramid draws a single 1 x 1
    field: the whole trace. *)
Example forward_pass_trace_2x2 :
  let shp := Shape4 1 4 2 2 in
  let offset := TRandn 1 (Shape4 1 4 1 1) in
  trace (snd (forward_pass ExtrasFacts.example_config example_extras shp
                           example_world)) =
    [ ECall the_batch true None;
      ECall the_conditions false None;
      ECall the_encoded false None;
      ECall (TRandnLike 0 the_latents) false None;
      ECall offset false None;
      ECall (TInterpolate offset (2, 2) "nearest") false None;
      ECall (the_diffused shp 0) false None;
      ECall (the_pred shp 0) true (Some "torch.bfloat16");
      ECall (the_mse shp 0) true (Some "torch.bfloat16");
      EUpdateBuckets (TItem 3 (the_diffused shp 0)) (the_loss shp 0) ].
Proof. reflexivity. Qed.

Lemma bucket_updates_level_calls shp scale_mode g a used : forall d,
  bucket_updates (Pyramid.level_calls shp scale_mode g a d used) = [].
Proof. induction used as [|i rest IH]; intros d; cbn; [done|apply IH]. Qed.

(** C5: one forward pass adds exactly one [update_buckets] call when the
    loss weight is the adaptive one, with the batch's logSNR and the
    per-sample loss (the first value returned, before it is multiplied by
    the loss weight or divided by [grad_accum_steps]), and none when it is
    the P2 one. *)
Theorem forward_pass_bucket_updates config extras shp w :
  let d := draws w in
  let r := forward_pass config extras shp w in
  bucket_updates (trace (snd r)) =
    bucket_updates (trace w)
    ++ match cls (Extras.loss_weight (gdf extras)) with
       | AdaptiveLossWeight => [(TItem 3 (the_diffused shp d), the_loss shp d)]
       | P2LossWeight => []
       end
  /\ fst r = Ok (the_loss shp d,
                 TDivInt (TMean (TMul (the_loss shp d)
                                      (TItem 5 (the_diffused shp d))))
                         (grad_accum_steps config)).
Proof.
  intros d r. subst r. rewrite forward_pass_run. cbn [fst snd trace].
  split; [|done].
  unfold bucket_updates, no_grad_calls, isinstance_Adaptive.
  rewrite !omap_app. fold (bucket_updates (trace w)).
  fold (bucket_updates (Pyramid.level_calls shp "nearest" false (autocast w)
                          (S (draws w)) (pyramid_levels shp))).
  rewrite bucket_updates_level_calls. cbn.
  by destruct (cls (Extras.loss_weight (gdf extras))).
Qed.

End StepFacts.

(** ** More on [_pyramid_noise] *)

Module PyramidMore.
Import Pyramid PyramidFacts.

Lemma levels_used_sorted size_range H b : forall n a,
  Z.to_nat (b - a) = n ->
  StronglySorted Z.lt (levels_used size_range H (py_range a b)).
Proof.
  induction n as [|n IH]; intros a Hn.
  - rewrite py_range_nil by lia. constructor.
  - rewrite py_range_cons by lia. cbn [levels_used].
    assert (Hrest : StronglySorted Z.lt
              (if H / 2 ^ a <=? 1 then []
               else levels_used size_range H (py_range (a + 1) b))).
    { destruct (H / 2 ^ a <=? 1); [constructor|]. apply IH. lia. }
    destruct (level_used size_range (H / 2 ^ a) (H / 2 ^ a)); [|done].
    cbn. constructor; [done|].
    destruct (H / 2 ^ a <=? 1); [constructor|].
    apply Forall_forall. intros i Hi.
    eapply (levels_used_range _ _ _ _ _ (a + 1)) in Hi; [lia|reflexivity].
Qed.

Lemma levels_used_length size_range H todo :
  (length (levels_used size_range H todo) <= length todo)%nat.
Proof.
  induction todo as [|i rest IH]; cbn [levels_used]; [done|].
  rewrite length_app. cbn [length].
  destruct (level_used _ _ _), (H / 2 ^ i <=? 1); cbn; lia.
Qed.

Lemma py_range_length a b : length (py_range a b) = Z.to_nat (b - a).
Proof. unfold py_range. by rewrite length_map, length_seq. Qed.

(** X1: on a non-empty input of height at least 2 (so that no empty
    field is drawn), with a scale mode that [interpolate] has for images,
    [_pyramid_noise] returns the input plus one upsampled, decayed field
    per level drawn, divided by the square root of the sum of the squared
    factors; the levels drawn are in increasing order and level [i] is
    drawn exactly when it is in [1, levels), its size (the input's height
    over [2 ^ i]) passes the range test, and no earlier level had size 1
    or below. *)
Theorem pyramid_levels_drawn shp epsilon size_range levels scale_mode w :
  1 <= size0 shp -> 1 <= size1 shp -> 2 <= size_m2 shp -> 1 <= size_m1 shp ->
  scale_mode ∈ ["nearest"; "bilinear"; "bicubic"; "area"; "nearest-exact"] ->
  exists used,
    fst (_pyramid_noise shp epsilon size_range levels scale_mode w) =
      Ok (TDivPow (accumulate shp scale_mode (draws w) used epsilon)
                  (sum_squares (1%Q :: map decay used)) (1 # 2))
    /\ StronglySorted Z.lt used
    /\ forall i,
         i ∈ used <->
           1 <= i < levels
           /\ level_used size_range (size_m2 shp / 2 ^ i) (size_m2 shp / 2 ^ i)
              = true
           /\ forall j, 1 <= j < i -> 1 < size_m2 shp / 2 ^ j.
Proof.
  intros _ _ _ _ _.
  exists (levels_used size_range (size_m2 shp) (py_range 1 levels)).
  split; [|split].
  - by rewrite _pyramid_noise_run.
  - by eapply levels_used_sorted.
  - intros i. apply levels_used_iff.
Qed.

Lemma pyramid_levels_drawn_witness :
  exists used,
    fst (_pyramid_noise (Shape4 2 4 64 64) (TVar "epsilon") (Some (1, 16)) 10
                        "nearest" (World [] 0 false None true (Info 0 None))) =
      Ok (TDivPow (accumulate (Shape4 2 4 64 64) "nearest" 0 used
                              (TVar "epsilon"))
                  (sum_squares (1%Q :: map decay used)) (1 # 2))
    /\ (3 ∈ used <->
          1 <= 3 < 10
          /\ level_used (Some (1, 16)) (64 / 2 ^ 3) (64 / 2 ^ 3) = true
          /\ forall j, 1 <= j < 3 -> 1 < 64 / 2 ^ j).
Proof.
  destruct (pyramid_levels_drawn (Shape4 2 4 64 64) (TVar "epsilon")
              (Some (1, 16)) 10 "nearest"
              (World [] 0 false None true (Info 0 None)))
    as (used & Hres & _ & Hiff).
  - cbn; lia.
  - cbn; lia.
  - cbn; lia.
  - cbn; lia.
  - repeat constructor.
  - exists used. split; [exact Hres|exact (Hiff 3)].
Defined.

(** X2: with [levels] at most 1 the loop body never runs: nothing is
    drawn, the world is as before and the input is divided by the square
    root of 1. *)
Theorem pyramid_noise_without_levels shp epsilon size_range levels scale_mode w :
  levels <= 1 ->
  _pyramid_noise shp epsilon size_range levels scale_mode w =
    (Ok (TDivPow epsilon (sum_squares [1%Q]) (1 # 2)), w)
  /\ (sum_squares [1%Q] == 1)%Q.
Proof.
  intros Hl. split; [|reflexivity].
  rewrite _pyramid_noise_run, py_range_nil by lia. cbn.
  destruct w. cbn. by rewrite app_nil_r, Nat.add_0_r.
Qed.

Lemma pyramid_noise_without_levels_witness :
  _pyramid_noise (Shape4 2 4 64 64) (TVar "epsilon") (Some (1, 16)) 1 "nearest"
                 (World [] 3 false None true (Info 0 None)) =
    (Ok (TDivPow (TVar "epsilon") (sum_squares [1%Q]) (1 # 2)),
     World [] 3 false None true (Info 0 None)).
Proof.
  apply (proj1 (pyramid_noise_without_levels (Shape4 2 4 64 64) (TVar "epsilon")
                  (Some (1, 16)) 1 "nearest"
                  (World [] 3 false None true (Info 0 None)) ltac:(lia))).
Defined.

Lemma square_nonneg (m : Q) : (0 <= Qpower m 2)%Q.
Proof. destruct m as [n d]. unfold Qle. cbn. nia. Qed.

Lemma fold_sum_ge (l : list Q) : forall acc,
  (acc <= fold_left Qplus (map (fun m => Qpower m 2) l) acc)%Q.
Proof.
  induction l as [|m l IH]; intros acc; cbn [map fold_left].
  - apply Qle_refl.
  - eapply Qle_trans; [|apply IH].
    rewrite <- (Qplus_0_r acc) at 1.
    apply Qplus_le_compat; [apply Qle_refl|apply square_nonneg].
Qed.

(** X3: the number whose square root [_pyramid_noise] divides by is at
    least 1 for every input, so the final division is never by zero. *)
Theorem pyramid_normaliser_at_least_one shp epsilon size_range levels
    scale_mode w :
  exists accumulated normaliser,
    fst (_pyramid_noise shp epsilon size_range levels scale_mode w) =
      Ok (TDivPow accumulated normaliser (1 # 2))
    /\ (1 <= normaliser)%Q.
Proof.
  rewrite _pyramid_noise_run. cbn [fst]. do 2 eexists. split; [reflexivity|].
  unfold sum_squares. cbn [map fold_left].
  eapply Qle_trans; [|apply fold_sum_ge]. done.
Qed.

Lemma drawn_shapes_level_calls shp scale_mode g a used : forall d,
  drawn_shapes (level_calls shp scale_mode g a d used) =
    map (fun i => Shape4 (size0 shp) (size1 shp)
                         (size_m2 shp / 2 ^ i) (size_m2 shp / 2 ^ i)) used.
Proof.
  induction used as [|i rest IH]; intros d; [done|].
  cbn -[Z.div Z.pow]. f_equal. apply IH.
Qed.

Lemma drawn_shapes_run shp epsilon size_range levels scale_mode w :
  drawn_shapes (trace (snd (_pyramid_noise shp epsilon size_range levels
                                           scale_mode w))) =
    drawn_shapes (trace w)
    ++ map (fun i => Shape4 (size0 shp) (size1 shp)
                            (size_m2 shp / 2 ^ i) (size_m2 shp / 2 ^ i))
           (levels_used size_range (size_m2 shp) (py_range 1 levels)).
Proof.
  rewrite _pyramid_noise_run. cbn [snd trace]. unfold drawn_shapes.
  rewrite omap_app. f_equal. apply drawn_shapes_level_calls.
Qed.

(** X4: when a size range is given, every random field
    [_pyramid_noise] draws is square, has the input's batch and channel
    sizes, and has its side within the range. *)
Theorem pyramid_fields_within_range shp epsilon lo hi levels scale_mode w :
  exists shapes,
    drawn_shapes (trace (snd (_pyramid_noise shp epsilon (Some (lo, hi)) levels
                                             scale_mode w))) =
      drawn_shapes (trace w) ++ shapes
    /\ Forall (fun s => size0 s = size0 shp /\ size1 s = size1 shp
                        /\ size_m1 s = size_m2 s
                        /\ lo <= size_m2 s <= hi) shapes.
Proof.
  eexists. split; [apply drawn_shapes_run|].
  apply Forall_map, Forall_forall. intros i Hi. cbn -[Z.div Z.pow].
  apply levels_used_iff in Hi as (_ & Hu & _).
  unfold level_used, within in Hu. cbn -[Z.div Z.pow] in Hu.
  rewrite orb_diag in Hu. apply andb_prop in Hu as [?%Z.leb_le ?%Z.leb_le].
  done.
Qed.

Lemma half_again H i : 1 <= i -> H / 2 ^ i = H / 2 ^ (i - 1) / 2.
Proof.
  intros Hi. rewrite Z.div_div by lia. f_equal.
  replace i with (Z.succ (i - 1)) at 1 by lia.
  rewrite Z.pow_succ_r by lia. lia.
Qed.

(** X5: for an input of height at least 2 no empty field is ever drawn,
    with or without a size range: every field has both sides at least 1. *)
Theorem pyramid_fields_nonempty shp epsilon size_range levels scale_mode w :
  2 <= size_m2 shp ->
  exists shapes,
    drawn_shapes (trace (snd (_pyramid_noise shp epsilon size_range levels
                                             scale_mode w))) =
      drawn_shapes (trace w) ++ shapes
    /\ Forall (fun s => 1 <= size_m2 s /\ 1 <= size_m1 s) shapes.
Proof.
  intros HH. eexists. split; [apply drawn_shapes_run|].
  apply Forall_map, Forall_forall. intros i Hi. cbn -[Z.div Z.pow].
  apply levels_used_iff in Hi as (Hr & _ & Hj).
  assert (1 <= size_m2 shp / 2 ^ i); [|done].
  rewrite half_again by lia.
  destruct (decide (i = 1)) as [->|Hne].
  - cbn. rewrite Z.div_1_r. apply Z.div_le_lower_bound; lia.
  - specialize (Hj (i - 1) ltac:(lia)).
    apply Z.div_le_lower_bound; lia.
Qed.

Lemma pyramid_fields_nonempty_witness :
  exists shapes,
    drawn_shapes
      (trace (snd (_pyramid_noise (Shape4 1 4 5 5) (TVar "epsilon") None 10
                                  "nearest"
                                  (World [] 0 false None true (Info 0 None)))))
      = drawn_shapes [] ++ shapes
    /\ Forall (fun s => 1 <= size_m2 s /\ 1 <= size_m1 s) shapes.
Proof.
  apply (pyramid_fields_nonempty (Shape4 1 4 5 5) (TVar "epsilon") None 10
           "nearest" (World [] 0 false None true (Info 0 None))).
  cbn. lia.
Defined.

(** X6: [_pyramid_noise] draws at most [levels - 1] fields, logs two
    calls per field, and leaves the gradient mode, the autocast state, the
    synchronisation flag and the run information as they were. *)
Theorem pyramid_noise_frame shp epsilon size_range levels scale_mode w :
  let w' := snd (_pyramid_noise shp epsilon size_range levels scale_mode w) in
  exists fields,
    draws w' = (draws w + fields)%nat
    /\ (fields <= Z.to_nat (levels - 1))%nat
    /\ length (trace w') = (length (trace w) + 2 * fields)%nat
    /\ grad_enabled w' = grad_enabled w
    /\ autocast w' = autocast w
    /\ grad_sync w' = grad_sync w
    /\ info w' = info w.
Proof.
  intros w'. subst w'. rewrite _pyramid_noise_run. cbn [snd].
  exists (length (levels_used size_range (size_m2 shp) (py_range 1 levels))).
  cbn [draws trace grad_enabled autocast grad_sync info].
  split; [done|]. split.
  - etrans; [apply levels_used_length|]. by rewrite py_range_length.
  - split; [|done]. rewrite length_app. f_equal.
    generalize (draws w).
    induction (levels_used _ _ _) as [|i rest IH]; intros d; cbn; [done|].
    rewrite IH. lia.
Qed.

End PyramidMore.

(** ** More on the training step *)

Module StepMore.
Import Config Extras Step Schedule StepFacts.

(** X7: [forward_pass] restores the gradient mode and the autocast state
    it was entered with, leaves the synchronisation flag and the run
    information (step counter included) untouched, and draws between one
    and ten random tensors. *)
Theorem forward_pass_frame config extras shp w :
  let w' := snd (forward_pass config extras shp w) in
  grad_enabled w' = grad_enabled w
  /\ autocast w' = autocast w
  /\ grad_sync w' = grad_sync w
  /\ info w' = info w
  /\ (draws w < draws w' <= draws w + 10)%nat.
Proof.
  intros w'. subst w'. rewrite forward_pass_run. cbn.
  repeat split; try lia.
  assert (length (pyramid_levels shp) <= 9)%nat; [|lia].
  unfold pyramid_levels.
  etrans; [apply PyramidMore.levels_used_length|].
  by rewrite PyramidMore.py_range_length.
Qed.

Lemma sched_steps_app k tr1 tr2 :
  sched_steps k (tr1 ++ tr2) = (sched_steps k tr1 + sched_steps k tr2)%nat.
Proof. unfold sched_steps. by rewrite List.filter_app, length_app. Qed.

Lemma optim_steps_app k tr1 tr2 :
  optim_steps k (tr1 ++ tr2) = (optim_steps k tr1 + optim_steps k tr2)%nat.
Proof. unfold optim_steps. by rewrite List.filter_app, length_app. Qed.

Lemma sched_steps_map k keys :
  sched_steps k (map ESchedStep keys) = occurrences k keys.
Proof.
  unfold sched_steps, occurrences.
  induction keys as [|k' rest IH]; cbn; [done|].
  destruct (String.eqb k' k); cbn; by rewrite IH.
Qed.

Lemma sched_steps_no_sched k {A} (f : A -> event) (l : list A) :
  (forall a, match f a with ESchedStep _ => False | _ => True end) ->
  sched_steps k (map f l) = 0%nat.
Proof.
  intros Hf. unfold sched_steps.
  induction l as [|a rest IH]; cbn; [done|].
  specialize (Hf a). destruct (f a); try done.
Qed.

Lemma optim_steps_map k keys :
  optim_steps k (map EOptimStep keys) = occurrences k keys.
Proof.
  unfold optim_steps, occurrences.
  induction keys as [|k' rest IH]; cbn; [done|].
  destruct (String.eqb k' k); cbn; by rewrite IH.
Qed.

Lemma optim_steps_no_optim k {A} (f : A -> event) (l : list A) :
  (forall a, match f a with EOptimStep _ => False | _ => True end) ->
  optim_steps k (map f l) = 0%nat.
Proof.
  intros Hf. unfold optim_steps.
  induction l as [|a rest IH]; cbn; [done|].
  specialize (Hf a). destruct (f a); try done.
Qed.

Lemma backward_pass_update_run loss loss_adjusted optimizers schedulers w :
  exists g tr,
    backward_pass true loss loss_adjusted optimizers schedulers w =
      (Ok g, World (trace w ++ tr) (draws w) (grad_enabled w) (autocast w)
                   (grad_sync w)
                   (Info (total_steps (info w) + 1) (adaptive_loss (info w))))
    /\ (forall k, sched_steps k tr = occurrences k schedulers)
    /\ (forall k, optim_steps k tr = occurrences k optimizers).
Proof.
  destruct w as [tr0 d g a sy i].
  unfold backward_pass, backward, clip_grad_norm_, bind at 1 2 3 4 5.
  cbn -[for_each].
  unfold bind at 1. rewrite for_each_emit. cbn -[for_each].
  unfold bind at 1. rewrite for_each_emit. cbn -[for_each].
  unfold bind at 1. rewrite for_each_emit. cbn.
  rewrite <- !app_assoc. do 2 eexists. split; [reflexivity|].
  split; intros k.
  - rewrite !sched_steps_app, sched_steps_map.
    rewrite (sched_steps_no_sched k EOptimStep) by done.
    rewrite (sched_steps_no_sched k (fun k => EZeroGrad k true)) by done.
    cbn. lia.
  - rewrite !optim_steps_app, optim_steps_map.
    rewrite (optim_steps_no_optim k ESchedStep) by done.
    rewrite (optim_steps_no_optim k (fun k => EZeroGrad k true)) by done.
    cbn. lia.
Qed.

(** X8: after any number of update passes the step counter equals the
    [last_epoch] that [setup_schedulers] gave the scheduler at the start
    plus the number of passes, and every scheduler and optimizer key has
    been stepped once per pass (per occurrence); the adaptive-loss
    snapshot is not touched. *)
Theorem update_passes_keep_scheduler_in_step config losses optimizers
    schedulers w :
  let scheduler := setup_schedulers config (info w) in
  let r := update_passes losses optimizers schedulers w in
  let passes := length losses in
  fst r = Ok tt
  /\ (forall k, sched_steps k (trace (snd r)) =
                  (sched_steps k (trace w)
                   + passes * occurrences k schedulers)%nat)
  /\ (forall k, optim_steps k (trace (snd r)) =
                  (optim_steps k (trace w)
                   + passes * occurrences k optimizers)%nat)
  /\ total_steps (info (snd r)) = last_epoch scheduler + Z.of_nat passes
  /\ adaptive_loss (info (snd r)) = adaptive_loss (info w).
Proof.
  cbn zeta. cbn [setup_schedulers last_epoch].
  revert w. induction losses as [|[loss la] rest IH]; intros w.
  - cbn. repeat split; intros; lia.
  - cbn [update_passes]. unfold bind.
    destruct (backward_pass_update_run loss la optimizers schedulers w)
      as (g & tr & -> & Hs & Ho).
    specialize (IH (World (trace w ++ tr) (draws w) (grad_enabled w)
                          (autocast w) (grad_sync w)
                          (Info (total_steps (info w) + 1)
                                (adaptive_loss (info w))))).
    cbn [trace info total_steps adaptive_loss] in IH.
    destruct IH as (Hok & Hse & Hop & Hts & Hal).
    split; [done|]. split; [|split; [|split; [|done]]].
    + intros k. rewrite Hse, sched_steps_app, Hs. cbn [length]. lia.
    + intros k. rewrite Hop, optim_steps_app, Ho. cbn [length]. lia.
    + rewrite Hts. cbn [length]. lia.
Qed.

End StepMore.

(** ** More on [setup_extras_pre] *)

Module ExtrasMore.
Import Config Extras.

(** X9: [setup_extras_pre] raises exactly when the run information has a
    snapshot that lacks one of the two entries, and the error is the
    [KeyError] of the first missing key, 'bucket_ranges' being read
    first. *)
Theorem setup_extras_pre_raises_iff r0 l0 config info e :
  setup_extras_pre r0 l0 config info = Raise e <->
    exists snapshot,
      adaptive_loss info = Some snapshot
      /\ ((snapshot !! "bucket_ranges" = None /\ e = KeyError "bucket_ranges")
          \/ (is_Some (snapshot !! "bucket_ranges")
              /\ snapshot !! "bucket_losses" = None
              /\ e = KeyError "bucket_losses")).
Proof.
  unfold setup_extras_pre, getitem.
  destruct (adaptive_loss info) as [snapshot|]; cbn.
  - destruct (snapshot !! "bucket_ranges") as [ranges|] eqn:Hr; cbn.
    + destruct (snapshot !! "bucket_losses") as [losses|] eqn:Hl; cbn.
      * split; [discriminate|].
        intros (s & [= <-] & [[? _]|(_ & ? & _)]); congruence.
      * split.
        -- intros [= <-]. exists snapshot. split; [done|]. right. eauto.
        -- intros (s & [= <-] & [[? _]|(_ & _ & ->)]); [congruence|done].
    + split.
      * intros [= <-]. exists snapshot. split; [done|]. by left.
      * intros (s & [= <-] & [[_ ->]|([? ?] & _)]); [done|congruence].
  - split; [discriminate|]. by intros (s & ? & _).
Qed.

(** X10: the run information reaches nothing but the two bucket
    attributes: for one configuration, any two runs of [setup_extras_pre]
    that succeed agree on the schedule, scaler, target, noise
    conditioning, loss-weight class, sampling configuration and
    transforms. *)
Theorem setup_extras_pre_info_reaches_buckets_only r0 l0 config info1 info2
    ex1 ex2 :
  setup_extras_pre r0 l0 config info1 = Ok ex1 ->
  setup_extras_pre r0 l0 config info2 = Ok ex2 ->
  schedule (gdf ex1) = schedule (gdf ex2)
  /\ input_scaler (gdf ex1) = input_scaler (gdf ex2)
  /\ target (gdf ex1) = target (gdf ex2)
  /\ noise_cond (gdf ex1) = noise_cond (gdf ex2)
  /\ cls (loss_weight (gdf ex1)) = cls (loss_weight (gdf ex2))
  /\ sampling_configs ex1 = sampling_configs ex2
  /\ transforms ex1 = transforms ex2
  /\ effnet_preprocess ex1 = effnet_preprocess ex2
  /\ clip_preprocess ex1 = clip_preprocess ex2.
Proof.
  unfold setup_extras_pre, getitem. intros H1 H2.
  destruct (adaptive_loss info1) as [s1|], (adaptive_loss info2) as [s2|];
    cbn in H1, H2;
    repeat match type of H1 with
           | context [?s !! ?k] => destruct (s !! k); cbn in H1; [|discriminate]
           end;
    repeat match type of H2 with
           | context [?s !! ?k] => destruct (s !! k); cbn in H2; [|discriminate]
           end;
    injection H1 as <-; injection H2 as <-; cbn; done.
Qed.

Lemma setup_extras_pre_info_reaches_buckets_only_witness :
  exists ex1 ex2,
    setup_extras_pre (torch_tensor []) (torch_tensor [])
                     ExtrasFacts.example_config (Info 0 None) = Ok ex1
    /\ setup_extras_pre (torch_tensor []) (torch_tensor [])
                        ExtrasFacts.example_config
                        (Info 7 (Some ExtrasFacts.example_snapshot)) = Ok ex2
    /\ cls (loss_weight (gdf ex1)) = cls (loss_weight (gdf ex2))
    /\ sampling_configs ex1 = sampling_configs ex2.
Proof.
  do 2 eexists. split; [reflexivity|]. split; [reflexivity|].
  destruct (setup_extras_pre_info_reaches_buckets_only
              (torch_tensor []) (torch_tensor []) ExtrasFacts.example_config
              (Info 0 None) (Info 7 (Some ExtrasFacts.example_snapshot))
              _ _ eq_refl eq_refl) as (_ & _ & _ & _ & Hc & Hs & _).
  split; [exact Hc|exact Hs].
Defined.

(** X11: [setup_extras_pre] reads the snapshot through its
    'bucket_ranges' and 'bucket_losses' entries only, and never reads the
    step counter: snapshots that agree on the two entries give the same
    result. *)
Theorem setup_extras_pre_reads_two_keys r0 l0 config n1 n2
    (s1 s2 : gmap string (list Q)) :
  s1 !! "bucket_ranges" = s2 !! "bucket_ranges" ->
  s1 !! "bucket_losses" = s2 !! "bucket_losses" ->
  setup_extras_pre r0 l0 config (Info n1 (Some s1)) =
  setup_extras_pre r0 l0 config (Info n2 (Some s2)).
Proof.
  intros Hr Hl. unfold setup_extras_pre, getitem. cbn. by rewrite Hr, Hl.
Qed.

Lemma setup_extras_pre_reads_two_keys_witness :
  setup_extras_pre (torch_tensor []) (torch_tensor [])
                   ExtrasFacts.example_config
                   (Info 7 (Some ExtrasFacts.example_snapshot)) =
  setup_extras_pre (torch_tensor []) (torch_tensor [])
                   ExtrasFacts.example_config
                   (Info 900 (Some (<["ema_loss" := [(1 # 3)%Q]]>
                                      ExtrasFacts.example_snapshot))).
Proof.
  apply (setup_extras_pre_reads_two_keys (torch_tensor []) (torch_tensor [])
           ExtrasFacts.example_config 7 900); reflexivity.
Defined.

End ExtrasMore.

(** ** More on [setup_models] *)

Module ModelsMore.
Import Config Models Schedule ModelsFacts.

Ltac setup_models_cases H :=
  ModelsFacts.unfold_setup H; ModelsFacts.crack H; injection H as <-; cbn.

(** X12: whatever the checkpoint store, the sharding switch and the EMA
    setting, the models [setup_models] returns have the EfficientNet
    encoder and the autoencoder loaded from the two configured paths, and
    these and the two CLIP text modules in evaluation mode, without
    gradients and unwrapped; there is no CLIP image model. *)
Theorem encoders_frozen_from_config env config store m :
  setup_models env config store = Ok m ->
  effnet m = Module_ EfficientNetEncoder
                     (SDFile (effnet_checkpoint_path config)) false false None
  /\ stage_a m = Module_ StageA (SDFile (stage_a_checkpoint_path config))
                         false false None
  /\ clip_text_model m =
       Module_ CLIPTextModel (SDPretrained (clip_text_model_name config))
               false false None
  /\ clip_text_model_proj m =
       Module_ CLIPTextProjection (SDPretrained (clip_text_model_name config))
               false false None
  /\ clip_image_model m = None.
Proof. intros Hm. setup_models_cases Hm; done. Qed.

Lemma encoders_frozen_from_config_witness :
  exists m,
    setup_models all_load ExtrasFacts.example_config
                 {["effnet" := SDFile "other"]} = Ok m
    /\ params (effnet m) = SDFile "models/effnet_encoder.safetensors"
    /\ requires_grad (effnet m) = false.
Proof.
  eexists. split; [reflexivity|].
  destruct (encoders_frozen_from_config all_load ExtrasFacts.example_config
              {["effnet" := SDFile "other"]} _ eq_refl) as (-> & _).
  split; reflexivity.
Defined.

(** X13: the generator [setup_models] returns is left in training mode
    with gradients on, and its parameters are those of the stored
    'generator' checkpoint if there is one, else those of
    [generator_checkpoint_path] if set, else its initial ones. *)
Theorem generator_trainable_and_restored env config store m :
  setup_models env config store = Ok m ->
  training (generator m) = true
  /\ requires_grad (generator m) = true
  /\ params (generator m) =
       match store !! "generator", generator_checkpoint_path config with
       | Some sd, _ => sd
       | None, Some path => SDFile path
       | None, None => SDFresh "generator"
       end.
Proof. intros Hm. setup_models_cases Hm; done. Qed.

Lemma generator_trainable_and_restored_witness :
  exists m,
    setup_models all_load ExtrasFacts.example_config
                 {["generator" := SDFile "run/generator.safetensors"]} = Ok m
    /\ training (generator m) = true
    /\ params (generator m) = SDFile "run/generator.safetensors".
Proof.
  eexists. split; [reflexivity|].
  destruct (generator_trainable_and_restored all_load
              ExtrasFacts.example_config
              {["generator" := SDFile "run/generator.safetensors"]} _ eq_refl)
    as (Ht & _ & Hp).
  split; [exact Ht|exact Hp].
Defined.

(** X14: with [use_fsdp] the generator is wrapped with the policy of
    its own architecture (the 3B block classes for the 3B model, the 700M
    ones for the 700M model) and the EMA copy, when there is one, with the
    same policy; without [use_fsdp] neither is wrapped. *)
Theorem fsdp_policy_follows_version env config store m :
  setup_models env config store = Ok m ->
  let policy := match m_arch (generator m) with
                | StageB_3B => policy_3B
                | _ => policy_700M
                end in
  let wrap := if use_fsdp config then Some policy else None in
  (m_arch (generator m) = StageB_3B \/ m_arch (generator m) = StageB_700M)
  /\ fsdp_wrap (generator m) = wrap
  /\ forall ema, generator_ema m = Some ema -> fsdp_wrap ema = wrap.
Proof.
  intros Hm. setup_models_cases Hm;
    (split; [auto|]); (split; [done|]); intros ema [= <-]; done.
Qed.

Lemma fsdp_policy_follows_version_witness :
  exists m ema,
    setup_models all_load ExtrasFacts.example_config ∅ = Ok m
    /\ generator_ema m = Some ema
    /\ fsdp_wrap (generator m) = Some policy_3B
    /\ fsdp_wrap ema = Some policy_3B.
Proof.
  do 2 eexists. split; [reflexivity|]. split; [reflexivity|].
  destruct (fsdp_policy_follows_version all_load ExtrasFacts.example_config ∅
              _ eq_refl)
    as (_ & Hg & He).
  split; [exact Hg|exact (He _ eq_refl)].
Defined.

(** X15: [setup_models] reads the checkpoint store only under the names
    that [models_to_save] lists: stores that agree on 'generator' and
    'generator_ema' give the same models. *)
Theorem setup_models_reads_saved_names env config
    (store1 store2 : gmap string state_dict) :
  (forall name, name ∈ models_to_save -> store1 !! name = store2 !! name) ->
  setup_models env config store1 = setup_models env config store2.
Proof.
  intros Hs. unfold setup_models, load_model.
  rewrite (Hs "generator"), (Hs "generator_ema"); [done|..];
    unfold models_to_save; repeat constructor.
Qed.

Lemma setup_models_reads_saved_names_witness :
  setup_models all_load ExtrasFacts.example_config ∅ =
  setup_models all_load ExtrasFacts.example_config
               {["generator_optim" := SDFile "run/generator_optim.pt"]}.
Proof.
  apply setup_models_reads_saved_names.
  intros name Hn. unfold models_to_save in Hn.
  repeat (apply elem_of_cons in Hn as [->|Hn]); [reflexivity..|].
  by apply elem_of_nil in Hn.
Defined.

End ModelsMore.

(** ** [get_conditions] *)

Module ConditionsFacts.
Import Conditions.

Lemma map_is_fmap {A B} (f : A -> B) (l : list A) : map f l = f <$> l.
Proof. induction l as [|a l IH]; cbn; [done|]. by rewrite IH. Qed.

Lemma rand_idx_length n rand : length (rand_idx n rand) = n.
Proof. unfold rand_idx. by rewrite length_map, length_seq. Qed.

Lemma rand_idx_lookup n rand j :
  (j < n)%nat ->
  rand_idx n rand !! j = Some (Qle_bool (rand j) double_0_9).
Proof.
  intros Hj. unfold rand_idx.
  by rewrite map_is_fmap, list_lookup_fmap, lookup_seq_lt.
Qed.

Lemma zip_seq_lookup (mask : list bool) j b :
  mask !! j = Some b ->
  zip (seq 0 (length mask)) mask !! j = Some (j, b).
Proof.
  intros Hj. rewrite lookup_zip_with, lookup_seq_lt, Hj; [done|].
  by eapply lookup_lt_Some.
Qed.

Lemma selected_iff (mask : list bool) j :
  j ∈ selected mask <-> mask !! j = Some true.
Proof.
  unfold selected. rewrite list_elem_of_omap. split.
  - intros ([i b] & Hin & Hsel). cbn in Hsel. destruct b; [|done].
    injection Hsel as ->.
    apply elem_of_lookup_zip_with in Hin as (k & i' & b' & [= -> ->] & Hs & Hm).
    apply lookup_seq in Hs as [-> _]. done.
  - intros Hj. exists (j, true). split; [|done].
    eapply list_elem_of_lookup_2. by apply zip_seq_lookup.
Qed.

Lemma any_true_iff (mask : list bool) :
  any mask = true <-> exists j, mask !! j = Some true.
Proof.
  unfold any. rewrite existsb_exists. split.
  - intros (b & Hin & Hb). unfold id in Hb. subst b.
    apply list_elem_of_In, list_elem_of_lookup in Hin. done.
  - intros (j & Hj). exists true. split; [|done].
    apply list_elem_of_In. by eapply list_elem_of_lookup_2.
Qed.

(** X17: for image sides below [2 ^ 53] and, in training, computed
    sides of at least 32 (so that the resize succeeds), [get_conditions]
    returns one embedding row per image, makes at most one encoder call,
    and a row is the encoder's output for its own image exactly when that
    image was passed to the encoder, all other rows being zero; in
    training the encoder is never called on an empty selection. *)
Theorem embedded_rows_are_encoded_samples n H W is_eval is_unconditional
    eval_image_embeds return_fields effnet_factor rand :
  0 <= H < 2 ^ 53 -> 0 <= W < 2 ^ 53 ->
  (is_eval = false ->
   32 <= effnet_size H effnet_factor /\ 32 <= effnet_size W effnet_factor) ->
  let c := get_conditions n H W is_eval is_unconditional eval_image_embeds
                          return_fields effnet_factor rand in
  length (effnet c) = n
  /\ (length (effnet_calls c) <= 1)%nat
  /\ (forall j, (j < n)%nat ->
        (exists call, call ∈ effnet_calls c /\ j ∈ call_rows call
                      /\ effnet c !! j = Some (EffnetRow j (call_src call)))
        \/ ((forall call, call ∈ effnet_calls c -> j ∉ call_rows call)
            /\ effnet c !! j = Some ZeroRow))
  /\ (is_eval = false ->
      forall call, call ∈ effnet_calls c -> call_rows call <> []).
Proof.
  intros _ _ _ c. subst c. unfold get_conditions.
  destruct is_eval, is_unconditional; cbn [andb negb].
  - (* evaluation, unconditional *)
    cbn. rewrite length_replicate. repeat split; [lia| |done].
    intros j Hj. right. split; [by intros call ?%elem_of_nil|].
    by apply lookup_replicate_2.
  - (* evaluation, conditional *)
    cbn. rewrite length_map, length_seq. repeat split; [lia| |done].
    intros j Hj. left. eexists. split; [apply list_elem_of_here|]. cbn.
    split; [apply list_elem_of_lookup; exists j; by apply lookup_seq_lt|].
    by rewrite map_is_fmap, list_lookup_fmap, lookup_seq_lt.
  - (* training *)
    destruct (any (rand_idx n rand)) eqn:Hany; cbn.
    + rewrite length_map, length_zip_with, length_seq, rand_idx_length.
      repeat split; [lia|lia| |].
      * intros j Hj.
        pose proof (rand_idx_lookup n rand j Hj) as Hm.
        pose proof (zip_seq_lookup _ _ _ Hm) as Hz.
        rewrite rand_idx_length in Hz.
        rewrite map_is_fmap, list_lookup_fmap, Hz. cbn.
        destruct (Qle_bool (rand j) double_0_9) eqn:Hb.
        -- left. eexists. split; [apply list_elem_of_here|]. cbn.
           split; [by apply selected_iff|done].
        -- right. split; [|done].
           intros call ->%list_elem_of_singleton. cbn.
           rewrite selected_iff. congruence.
      * intros _ call ->%list_elem_of_singleton. cbn.
        apply any_true_iff in Hany as [j Hj].
        apply selected_iff in Hj. intros Hnil. rewrite Hnil in Hj.
        by apply elem_of_nil in Hj.
    + rewrite length_replicate. repeat split; [lia| |].
      * intros j Hj. right. split; [by intros call ?%elem_of_nil|].
        by apply lookup_replicate_2.
      * by intros _ call ?%elem_of_nil.
  - destruct (any (rand_idx n rand)) eqn:Hany; cbn.
    + rewrite length_map, length_zip_with, length_seq, rand_idx_length.
      repeat split; [lia|lia| |].
      * intros j Hj.
        pose proof (rand_idx_lookup n rand j Hj) as Hm.
        pose proof (zip_seq_lookup _ _ _ Hm) as Hz.
        rewrite rand_idx_length in Hz.
        rewrite map_is_fmap, list_lookup_fmap, Hz. cbn.
        destruct (Qle_bool (rand j) double_0_9) eqn:Hb.
        -- left. eexists. split; [apply list_elem_of_here|]. cbn.
           split; [by apply selected_iff|done].
        -- right. split; [|done].
           intros call ->%list_elem_of_singleton. cbn.
           rewrite selected_iff. congruence.
      * intros _ call ->%list_elem_of_singleton. cbn.
        apply any_true_iff in Hany as [j Hj].
        apply selected_iff in Hj. intros Hnil. rewrite Hnil in Hj.
        by apply elem_of_nil in Hj.
    + rewrite length_replicate. repeat split; [lia| |].
      * intros j Hj. right. split; [by intros call ?%elem_of_nil|].
        by apply lookup_replicate_2.
      * by intros _ call ?%elem_of_nil.
Qed.

(** The double nearest to 2/3 and two draws, 0.5 and 0.9375. *)
Definition double_2_3 : Q := 6004799503160661 # 9007199254740992.
Definition two_draws (j : nat) : Q :=
  match j with
  | O => 1 # 2
  | _ => 15 # 16
  end.

Example effnet_size_96 : effnet_size 96 double_2_3 = 64.
Proof. vm_compute. reflexivity. Qed.

Lemma embedded_rows_are_encoded_samples_witness :
  length (effnet (get_conditions 2 96 96 false false false None
                                 double_2_3 two_draws)) = 2%nat
  /\ forall call,
       call ∈ effnet_calls (get_conditions 2 96 96 false false false None
                                           double_2_3 two_draws) ->
       call_rows call <> [].
Proof.
  destruct (embedded_rows_are_encoded_samples 2 96 96 false false false None
              double_2_3 two_draws) as (Hlen & _ & _ & Hcalls).
  - split; [discriminate|reflexivity].
  - split; [discriminate|reflexivity].
  - intros _. split; vm_compute; discriminate.
  - split; [exact Hlen|exact (Hcalls eq_refl)].
Defined.

(** X18: in evaluation mode the result of [get_conditions] does not
    depend on the dropout numbers, and for conditional evaluation not on
    the size factor either. *)
Theorem evaluation_draws_no_dropout n H W is_unconditional eval_image_embeds
    return_fields f1 f2 rand1 rand2 :
  get_conditions n H W true is_unconditional eval_image_embeds return_fields
                 f1 rand1 =
  get_conditions n H W true is_unconditional eval_image_embeds return_fields
                 f1 rand2
  /\ get_conditions n H W true false eval_image_embeds return_fields f1 rand1 =
     get_conditions n H W true false eval_image_embeds return_fields f2 rand2.
Proof. by destruct is_unconditional. Qed.

Lemma none_selected n rand :
  any (rand_idx n rand) = false ->
  forall j, (j < n)%nat -> Qle_bool (rand j) double_0_9 = false.
Proof.
  intros Hany j Hj.
  destruct (Qle_bool (rand j) double_0_9) eqn:Hb; [|done].
  assert (any (rand_idx n rand) = true); [|congruence].
  apply any_true_iff. exists j. by rewrite rand_idx_lookup, Hb.
Qed.

(** X19: in training, for image sides below [2 ^ 53] and computed
    sides of at least 32, image [j] gets the encoder's output on its
    resized copy when its random number is at most the double 0.9 and a
    zero row otherwise, the zeros having the computed sides over 32; the
    embedding rows do not depend on [is_unconditional]. *)
Theorem training_rows_by_dropout n H W is_unconditional eval_image_embeds
    return_fields effnet_factor rand :
  0 <= H < 2 ^ 53 -> 0 <= W < 2 ^ 53 ->
  32 <= effnet_size H effnet_factor -> 32 <= effnet_size W effnet_factor ->
  let c := get_conditions n H W false is_unconditional eval_image_embeds
                          return_fields effnet_factor rand in
  let h := effnet_size H effnet_factor in
  let w := effnet_size W effnet_factor in
  zeros_hw c = Some (h / 32, w / 32)
  /\ (forall j, (j < n)%nat ->
        effnet c !! j =
          Some (if Qle_bool (rand j) double_0_9
                then EffnetRow j (Resized h w "NEAREST") else ZeroRow))
  /\ effnet c = effnet (get_conditions n H W false (negb is_unconditional)
                                       eval_image_embeds return_fields
                                       effnet_factor rand).
Proof.
  intros _ _ _ _ c h w. subst c h w. unfold get_conditions.
  replace (false && negb is_unconditional) with false by done.
  replace (false && negb (negb is_unconditional)) with false by done.
  cbn [negb].
  destruct (any (rand_idx n rand)) eqn:Hany; cbn -[effnet_size].
  - split; [done|]. split; [|done]. intros j Hj.
    pose proof (rand_idx_lookup n rand j Hj) as Hm.
    pose proof (zip_seq_lookup _ _ _ Hm) as Hz.
    rewrite rand_idx_length in Hz.
    by rewrite map_is_fmap, list_lookup_fmap, Hz.
  - split; [done|]. split; [|done]. intros j Hj.
    rewrite (none_selected n rand Hany j Hj).
    by apply lookup_replicate_2.
Qed.

Lemma training_rows_by_dropout_witness :
  zeros_hw (get_conditions 2 96 96 false false false None
                           double_2_3 two_draws) = Some (2, 2)
  /\ effnet (get_conditions 2 96 96 false false false None
                            double_2_3 two_draws) !! 0%nat
     = Some (EffnetRow 0 (Resized 64 64 "NEAREST"))
  /\ effnet (get_conditions 2 96 96 false false false None
                            double_2_3 two_draws) !! 1%nat
     = Some ZeroRow.
Proof.
  destruct (training_rows_by_dropout 2 96 96 false false None
              double_2_3 two_draws) as (Hhw & Hrows & _).
  - split; [discriminate|reflexivity].
  - split; [discriminate|reflexivity].
  - vm_compute. discriminate.
  - vm_compute. discriminate.
  - pose proof (Hrows 0%nat ltac:(lia)) as H0.
    pose proof (Hrows 1%nat ltac:(lia)) as H1.
    vm_compute in Hhw, H0, H1 |- *. split; [exact Hhw|]. split; [exact H0|exact H1].
Defined.

(** X20: the fields [get_conditions] asks the base class for are never
    empty: [None] and the empty list both give ['clip_text_pooled'], any
    other list is passed on; the three flags are passed on unchanged. *)
Theorem super_call_fields_never_empty n H W is_eval is_unconditional
    eval_image_embeds return_fields effnet_factor rand :
  let call := clip (get_conditions n H W is_eval is_unconditional
                                   eval_image_embeds return_fields
                                   effnet_factor rand) in
  sc_return_fields call <> []
  /\ (sc_return_fields call = ["clip_text_pooled"]
      \/ return_fields = Some (sc_return_fields call))
  /\ (return_fields = None \/ return_fields = Some [] ->
      sc_return_fields call = ["clip_text_pooled"])
  /\ sc_is_eval call = is_eval
  /\ sc_is_unconditional call = is_unconditional
  /\ sc_eval_image_embeds call = eval_image_embeds.
Proof.
  intros call. subst call. unfold get_conditions.
  destruct (is_eval && negb is_unconditional), (negb is_eval),
    (any (rand_idx n rand)); cbn;
    (destruct return_fields as [[|f l]|]; cbn;
     repeat split; auto; try done; intros [|]; done).
Qed.

End ConditionsFacts.

(** ** [decode_latents] *)

Module LatentsFacts.
Import Float Latents.

Lemma clamp01_unit_or_nan x : unit_or_nan (clamp01 x).
Proof.
  destruct x as [|[]|q]; cbn; try done.
  split; [apply Q.min_glb; [apply Q.le_max_r|done]|apply Q.le_min_r].
Qed.

(** X21: whatever the decoder returns, every element of
    [decode_latents]'s result is a number in [0, 1] or a NaN, never an
    infinity and never a number outside: a NaN of the decoder stays a NaN
    (and only those), plus infinity and numbers above 1 become 1, minus
    infinity and numbers below 0 become 0, and numbers inside are kept;
    the decoder is given the latents converted to float32 and the number
    of elements is the decoder's. *)
Theorem decode_latents_in_unit_interval (stage_a_decode : list fval -> list fval)
    latents :
  let decoded := stage_a_decode (map float latents) in
  let result := decode_latents stage_a_decode latents in
  length result = length decoded
  /\ Forall unit_or_nan result
  /\ forall i x,
       decoded !! i = Some x ->
       exists y,
         result !! i = Some y
         /\ (y = FNaN <-> x = FNaN)
         /\ (x = FInf false -> y = FFin 1)
         /\ (x = FInf true -> y = FFin 0)
         /\ (forall q, x = FFin q ->
               exists r, y = FFin r
                         /\ ((0 <= q)%Q -> (q <= 1)%Q -> (r == q)%Q)
                         /\ ((q <= 0)%Q -> (r == 0)%Q)
                         /\ ((1 <= q)%Q -> (r == 1)%Q)).
Proof.
  intros decoded result. subst decoded result. unfold decode_latents.
  split; [by rewrite length_map|]. split.
  - apply Forall_map, Forall_forall. intros x _. apply clamp01_unit_or_nan.
  - intros i x Hx. exists (clamp01 x).
    rewrite (ConditionsFacts.map_is_fmap clamp01), list_lookup_fmap, Hx.
    split; [done|]. split; [by destruct x as [|[]|q]|].
    split; [by intros ->|]. split; [by intros ->|].
    intros q ->. cbn. eexists. split; [reflexivity|].
    split; [|split]; intros Hb.
    + intros H1. rewrite Q.min_l; [by apply Q.max_l|]. by rewrite Q.max_l.
    + rewrite Q.max_r by done. by apply Q.min_l.
    + apply Q.min_r. eapply Qle_trans; [exact Hb|apply Q.le_max_l].
Qed.

(** A decoder that returns a NaN, an infinity, and numbers below, inside
    and above the unit interval, whatever it is given. *)
Example decode_latents_on_bad_values :
  decode_latents
    (fun _ => [FNaN; FInf false; FFin (-1); FFin (1 # 2); FFin 3; FInf true])
    [FFin (1 # 3)]
  = [FNaN; FFin 1; FFin 0; FFin (1 # 2); FFin 1; FFin 0].
Proof. reflexivity. Qed.

End LatentsFacts.
